(** * crm-gbi-whatsapp: the agent client and the claim protocol

    A shallow embedding of the browser client of the CRM
    (frontend/src/hooks/useWebSocket.js, frontend/src/pages/Dashboard.jsx and
    frontend/src/services/api.js) together with the conversation claim and
    resolve transitions of the dispatcher, and the properties of the
    specification that concern them.

    Layout:
    - [JS]        the fragment of JavaScript values the client computes with;
    - [Hook]      useWebSocket: connection, heartbeat, reconnection;
    - [Api]       services/api.js: interceptors, logout, read-side services;
    - [Dashboard] the page: live events, queue badge, polling;
    - [Dispatcher] claim and resolve, modelled from the specification. *)

From stdpp Require Import base option list strings pretty gmap fin_maps.
From Stdlib Require Import ZArith Lia Ascii.

Set Warnings "-register-all".

Local Open Scope string_scope.
Local Open Scope list_scope.
Local Open Scope Z_scope.

(* ===================================================================== *)
(** ** JavaScript values *)
(* ===================================================================== *)

Module JS.

(** JSON-shaped values. Numbers are the integer-valued ones (ids, counts,
    close codes); [VNaN] is what arithmetic on non-numbers produces. An
    object is the list of its own properties in insertion order, each key
    present once. *)
Inductive value : Type :=
  | VUndefined
  | VNull
  | VBool (b : bool)
  | VNum (z : Z)
  | VNaN
  | VStr (s : string)
  | VArr (elems : list value)
  | VObj (fields : list (string * value)).

(** ToBoolean. *)
Definition truthy (v : value) : bool :=
  match v with
  | VUndefined | VNull | VNaN => false
  | VBool b => b
  | VNum z => negb (z =? 0)
  | VStr s => negb (String.eqb s "")
  | VArr _ | VObj _ => true
  end.

(** [a || b]. *)
Definition or_else (a b : value) : value := if truthy a then a else b.

(** [String(v)], which is also the conversion of a template literal.
    An array prints its elements joined by commas, null and undefined
    elements printing as nothing. *)
Fixpoint to_string (v : value) : string :=
  match v with
  | VUndefined => "undefined"
  | VNull => "null"
  | VBool true => "true"
  | VBool false => "false"
  | VNum z => pretty z
  | VNaN => "NaN"
  | VStr s => s
  | VArr l =>
      (fix join (l : list value) : string :=
         match l with
         | [] => ""
         | x :: rest =>
             let sx := match x with
                       | VUndefined | VNull => ""
                       | _ => to_string x
                       end in
             match rest with
             | [] => sx
             | _ :: _ => sx +:+ "," +:+ join rest
             end
         end) l
  | VObj _ => "[object Object]"
  end.

(** [a === b]. Two objects (or arrays) that come from different parsed
    payloads are never the same reference. *)
Definition strict_eq (a b : value) : bool :=
  match a, b with
  | VUndefined, VUndefined => true
  | VNull, VNull => true
  | VBool x, VBool y => Bool.eqb x y
  | VNum x, VNum y => x =? y
  | VStr x, VStr y => String.eqb x y
  | _, _ => false
  end.

Fixpoint assoc (k : string) (fs : list (string * value)) : option value :=
  match fs with
  | [] => None
  | (k', v) :: rest => if String.eqb k k' then Some v else assoc k rest
  end.

(** [v.k] for a data property [k]: [None] is the TypeError raised on null
    and undefined; a missing property reads as undefined. *)
Definition prop (v : value) (k : string) : option value :=
  match v with
  | VUndefined | VNull => None
  | VObj fs => Some (default VUndefined (assoc k fs))
  | _ => Some VUndefined
  end.

(** [v?.k]. *)
Definition opt_prop (v : value) (k : string) : value :=
  default VUndefined (prop v k).


(** ToPrimitive, then the two cases of [+]: concatenation as soon as one
    side is a string, numeric addition otherwise. *)
Definition to_primitive (v : value) : value :=
  match v with
  | VArr _ | VObj _ => VStr (to_string v)
  | _ => v
  end.

Definition to_number (v : value) : option Z :=
  match v with
  | VNull => Some 0
  | VBool b => Some (if b then 1 else 0)
  | VNum z => Some z
  | _ => None
  end.

Definition is_str (v : value) : bool :=
  match v with VStr _ => true | _ => false end.

Definition add (a b : value) : value :=
  let pa := to_primitive a in
  let pb := to_primitive b in
  if is_str pa || is_str pb then VStr (to_string pa +:+ to_string pb)
  else match to_number pa, to_number pb with
       | Some x, Some y => VNum (x + y)
       | _, _ => VNaN
       end.


(** *** JSON.stringify *)

Definition dq : ascii := "034"%char.
Definition bs : ascii := "092"%char.

Definition hex_digit (n : N) : ascii :=
  ascii_of_N (if (n <? 10)%N then 48 + n else 87 + n)%N.

Definition escape_char (c : ascii) : string :=
  let n := N_of_ascii c in
  if Ascii.eqb c dq then String bs (String dq "")
  else if Ascii.eqb c bs then String bs (String bs "")
  else if (n =? 8)%N then String bs "b"
  else if (n =? 12)%N then String bs "f"
  else if (n =? 10)%N then String bs "n"
  else if (n =? 13)%N then String bs "r"
  else if (n =? 9)%N then String bs "t"
  else if (n <? 32)%N then
    String bs ("u00" +:+ String (hex_digit (n / 16)) (String (hex_digit (n mod 16)) ""))
  else String c "".

Fixpoint escape (s : string) : string :=
  match s with
  | EmptyString => ""
  | String c rest => escape_char c +:+ escape rest
  end.

Definition quote (s : string) : string :=
  String dq (escape s +:+ String dq "").

Fixpoint join_with (sep : string) (l : list string) : string :=
  match l with
  | [] => ""
  | [x] => x
  | x :: rest => x +:+ sep +:+ join_with sep rest
  end.

(** [JSON.stringify(v)]; [None] is the result undefined. Inside an array
    undefined prints as null, inside an object the property is left out. *)
Fixpoint stringify (v : value) : option string :=
  match v with
  | VUndefined => None
  | VNull | VNaN => Some "null"
  | VBool true => Some "true"
  | VBool false => Some "false"
  | VNum z => Some (pretty z)
  | VStr s => Some (quote s)
  | VArr l =>
      Some ("[" +:+ join_with ","
              ((fix go (l : list value) : list string :=
                  match l with
                  | [] => []
                  | x :: rest => default "null" (stringify x) :: go rest
                  end) l) +:+ "]")
  | VObj fs =>
      Some ("{" +:+ join_with ","
              ((fix go (fs : list (string * value)) : list string :=
                  match fs with
                  | [] => []
                  | (k, x) :: rest =>
                      match stringify x with
                      | Some sx => (quote k +:+ ":" +:+ sx) :: go rest
                      | None => go rest
                      end
                  end) fs) +:+ "}")
  end.

End JS.

Import JS.

(* ===================================================================== *)
(** ** hooks/useWebSocket.js *)
(* ===================================================================== *)

Module Hook.

(** [WebSocket.readyState]. *)
Inductive ready_state := CONNECTING | OPEN | CLOSING | CLOSED.

Global Instance ready_state_eq_dec : EqDecision ready_state.
Proof. solve_decision. Defined.

(** Sockets are named by the order of their construction; timers by the
    handle [setTimeout]/[setInterval] returned, a positive integer that the
    browser never hands out twice. *)
Definition ws_id := nat.
Definition timer_id := positive.

(** The socket object with the field the hook adds to it. *)
Record websocket := WebSocket {
  url : string;
  readyState : ready_state;
  _pingInterval : option timer_id;
}.

(** The two closures the hook hands to the timer API. *)
Inductive callback :=
  | PingTick (ws : ws_id)      (* the heartbeat closure of [ws.onopen] *)
  | Reconnect.                 (* the closure of [ws.onclose]: [connect()] *)

Global Instance callback_eq_dec : EqDecision callback.
Proof. solve_decision. Defined.

Inductive timer_kind := Timeout | Interval.

Record timer := Timer {
  kind : timer_kind;
  delay : Z;
  action : callback;
}.

(** What the hook does to the outside world, in order: the calls it makes
    on the browser's socket and timer interfaces and the invocations of
    the [onMessage] callback it was given. Console output is not
    recorded. *)
Inductive effect :=
  | NewWebSocket (u : string)
  | Send (ws : ws_id) (text : string)
  | Close (ws : ws_id) (code : Z) (reason : string)
  | SetTimeout (id : timer_id) (ms : Z) (cb : callback)
  | SetInterval (id : timer_id) (ms : Z) (cb : callback)
  | ClearTimeout (id : timer_id)
  | ClearInterval (id : timer_id)
  | OnMessage (data : value).

(** Arguments of the hook and the part of [window.location] it reads. *)
Record props := Props {
  agentId : value;
  sector : value;
  has_onMessage : bool;
  protocol : string;
  hostname : string;
}.

(** Refs, React state, and the browser's socket and timer tables. *)
Record state := State {
  sockets : gmap nat websocket;
  next_socket : ws_id;
  timers : gmap positive timer;
  next_timer : timer_id;
  wsRef : option ws_id;
  reconnectTimeoutRef : option timer_id;
  isConnected : bool;
  lastMessage : option value;
}.

Definition init : state :=
  {| sockets := ∅; next_socket := 0%nat; timers := ∅; next_timer := 1%positive;
     wsRef := None; reconnectTimeoutRef := None;
     isConnected := false; lastMessage := None |}.

Definition set_sockets (f : gmap nat websocket -> gmap nat websocket) (s : state) :=
  {| sockets := f (sockets s); next_socket := next_socket s;
     timers := timers s; next_timer := next_timer s;
     wsRef := wsRef s; reconnectTimeoutRef := reconnectTimeoutRef s;
     isConnected := isConnected s; lastMessage := lastMessage s |}.

Definition set_isConnected (b : bool) (s : state) :=
  {| sockets := sockets s; next_socket := next_socket s;
     timers := timers s; next_timer := next_timer s;
     wsRef := wsRef s; reconnectTimeoutRef := reconnectTimeoutRef s;
     isConnected := b; lastMessage := lastMessage s |}.

Definition set_lastMessage (d : value) (s : state) :=
  {| sockets := sockets s; next_socket := next_socket s;
     timers := timers s; next_timer := next_timer s;
     wsRef := wsRef s; reconnectTimeoutRef := reconnectTimeoutRef s;
     isConnected := isConnected s; lastMessage := Some d |}.

Definition set_reconnectTimeoutRef (r : option timer_id) (s : state) :=
  {| sockets := sockets s; next_socket := next_socket s;
     timers := timers s; next_timer := next_timer s;
     wsRef := wsRef s; reconnectTimeoutRef := r;
     isConnected := isConnected s; lastMessage := lastMessage s |}.

(** *** Browser primitives *)

(** [setTimeout]/[setInterval]: a fresh handle, the timer armed. *)
Definition arm (k : timer_kind) (ms : Z) (cb : callback) (s : state)
  : timer_id * state :=
  let id := next_timer s in
  (id,
   {| sockets := sockets s; next_socket := next_socket s;
      timers := <[id := Timer k ms cb]> (timers s);
      next_timer := Pos.succ id;
      wsRef := wsRef s; reconnectTimeoutRef := reconnectTimeoutRef s;
      isConnected := isConnected s; lastMessage := lastMessage s |}).

(** [clearTimeout]/[clearInterval] share one table of handles. *)
Definition disarm (id : timer_id) (s : state) : state :=
  {| sockets := sockets s; next_socket := next_socket s;
     timers := delete id (timers s); next_timer := next_timer s;
     wsRef := wsRef s; reconnectTimeoutRef := reconnectTimeoutRef s;
     isConnected := isConnected s; lastMessage := lastMessage s |}.

(** [new WebSocket(u)] followed by [wsRef.current = ws]. *)
Definition construct (u : string) (s : state) : state :=
  let id := next_socket s in
  {| sockets := <[id := WebSocket u CONNECTING None]> (sockets s);
     next_socket := S id;
     timers := timers s; next_timer := next_timer s;
     wsRef := Some id; reconnectTimeoutRef := reconnectTimeoutRef s;
     isConnected := isConnected s; lastMessage := lastMessage s |}.

Definition set_readyState (ws : ws_id) (r : ready_state) (s : state) : state :=
  set_sockets (alter (fun w => WebSocket (url w) r (_pingInterval w)) ws) s.

Definition set_pingInterval (ws : ws_id) (id : timer_id) (s : state) : state :=
  set_sockets (alter (fun w => WebSocket (url w) (readyState w) (Some id)) ws) s.

(** [ws.close(code, reason)]: nothing on a socket already closing or
    closed, otherwise the socket starts closing. *)
Definition ws_close (ws : ws_id) (s : state) : state :=
  match sockets s !! ws with
  | Some w =>
      match readyState w with
      | CLOSING | CLOSED => s
      | _ => set_readyState ws CLOSING s
      end
  | None => s
  end.

(** *** The hook *)

Section WithProps.

Context (p : props).
(** Whether the [WebSocket] constructor accepts the URL; when it does not
    it throws, and [connect] catches. *)
Context (valid_url : string -> bool).

Definition wsPort : string := "8002".

Definition wsProtocol : string :=
  if String.eqb (protocol p) "https:" then "wss:" else "ws:".

Definition wsUrl : string :=
  wsProtocol +:+ "//" +:+ hostname p +:+ ":" +:+ wsPort +:+ "/ws/"
    +:+ to_string (agentId p) +:+ "/" +:+ to_string (sector p).

Definition connect (s : state) : state * list effect :=
  if negb (truthy (agentId p)) || negb (truthy (sector p)) then (s, [])
  else if valid_url wsUrl then (construct wsUrl s, [NewWebSocket wsUrl])
  else (s, [NewWebSocket wsUrl]).

(** The text of the heartbeat. *)
Definition ping_text : string :=
  default "undefined" (stringify (VObj [("type", VStr "ping")])).

(** [ws.onopen] *)
Definition onopen (ws : ws_id) (s : state) : state * list effect :=
  let s1 := set_isConnected true s in
  let '(id, s2) := arm Interval 30000 (PingTick ws) s1 in
  (set_pingInterval ws id s2, [SetInterval id 30000 (PingTick ws)]).

(** The closure given to [setInterval] in [ws.onopen]. *)
Definition ping_tick (ws : ws_id) (s : state) : state * list effect :=
  match sockets s !! ws with
  | Some w =>
      if decide (readyState w = OPEN) then (s, [Send ws ping_text]) else (s, [])
  | None => (s, [])
  end.

(** [ws.onmessage]; [None] is a payload [JSON.parse] rejects. *)
Definition onmessage (data : option value) (s : state) : state * list effect :=
  match data with
  | Some d =>
      (set_lastMessage d s, if has_onMessage p then [OnMessage d] else [])
  | None => (s, [])
  end.

(** [ws.onclose] *)
Definition onclose (ws : ws_id) (code : Z) (s : state) : state * list effect :=
  let s1 := set_isConnected false s in
  let '(s2, e2) :=
    match sockets s1 !! ws ≫= _pingInterval with
    | Some id => (disarm id s1, [ClearInterval id])
    | None => (s1, [])
    end in
  if negb (code =? 1000) then
    let '(id, s3) := arm Timeout 3000 Reconnect s2 in
    (set_reconnectTimeoutRef (Some id) s3, e2 ++ [SetTimeout id 3000 Reconnect])
  else (s2, e2).

(** The cleanup of the effect: component teardown. *)
Definition cleanup (s : state) : state * list effect :=
  let '(s1, e1) :=
    match reconnectTimeoutRef s with
    | Some id => (disarm id s, [ClearTimeout id])
    | None => (s, [])
    end in
  match wsRef s1 with
  | Some ws =>
      let '(s2, e2) :=
        match sockets s1 !! ws ≫= _pingInterval with
        | Some id => (disarm id s1, [ClearInterval id])
        | None => (s1, [])
        end in
      (ws_close ws s2, e1 ++ e2 ++ [Close ws 1000 "Component unmounting"])
  | None => (s1, e1)
  end.

(** [sendMessage] *)
Definition sendMessage (data : value) (s : state) : state * list effect :=
  match wsRef s with
  | Some ws =>
      match sockets s !! ws with
      | Some w =>
          if decide (readyState w = OPEN)
          then (s, [Send ws (default "undefined" (stringify data))])
          else (s, [])
      | None => (s, [])
      end
  | None => (s, [])
  end.

(** *** Events *)

(** What reaches the hook: React mounting and unmounting the component,
    the browser's socket events, a timer coming due, the page calling
    [sendMessage]. *)
Inductive event :=
  | Mount
  | Unmount
  | SocketOpen (ws : ws_id)
  | SocketMessage (ws : ws_id) (data : option value)
  | SocketClose (ws : ws_id) (code : Z) (reason : string)
  | SocketError (ws : ws_id)
  | TimerFire (id : timer_id)
  | CallSend (data : value).

Definition run_callback (cb : callback) (s : state) : state * list effect :=
  match cb with
  | PingTick ws => ping_tick ws s
  | Reconnect => connect s
  end.

(** The browser sets [readyState] before it dispatches open and close; a
    timeout is spent when it fires, an interval stays armed. *)
Definition step (s : state) (ev : event) : state * list effect :=
  match ev with
  | Mount => connect s
  | Unmount => cleanup s
  | SocketOpen ws => onopen ws (set_readyState ws OPEN s)
  | SocketMessage _ data => onmessage data s
  | SocketClose ws code _ => onclose ws code (set_readyState ws CLOSED s)
  | SocketError _ => (s, [])
  | TimerFire id =>
      match timers s !! id with
      | Some t =>
          match kind t with
          | Timeout => run_callback (action t) (disarm id s)
          | Interval => run_callback (action t) s
          end
      | None => (s, [])
      end
  | CallSend data => sendMessage data s
  end.

Fixpoint run (s : state) (evs : list event) : state * list effect :=
  match evs with
  | [] => (s, [])
  | ev :: rest =>
      let '(s1, e1) := step s ev in
      let '(s2, e2) := run s1 rest in
      (s2, e1 ++ e2)
  end.

End WithProps.

(** *** Reading a trace of effects *)

(** The delays of the reconnections scheduled. *)
Definition reconnect_delays (es : list effect) : list Z :=
  omap (fun e => match e with SetTimeout _ ms Reconnect => Some ms | _ => None end) es.




(** The URLs of the connection attempts. *)
Definition opened (es : list effect) : list string :=
  omap (fun e => match e with NewWebSocket u => Some u | _ => None end) es.

End Hook.

(* ===================================================================== *)
(** ** services/api.js *)
(* ===================================================================== *)

Module Api.

(** How a promise settles. *)
Inductive outcome :=
  | Resolved (v : value)
  | Rejected (e : value).

(** An axios request configuration. *)
Record request := Req {
  method : string;
  path : string;
  headers : gmap string string;
  params : list (string * value);
  body : value;
}.

Definition rejects (o : outcome) : bool :=
  match o with Rejected _ => true | Resolved _ => false end.

(** [localStorage]. *)
Abbreviation storage := (gmap string string).

(** What the client cannot see while it awaits a request: how the call
    settles ([Resolved d] carries [response.data]), and what other handlers
    of the page did to [localStorage] in the meantime. *)
Definition network := request -> storage -> outcome * storage.

Section WithEnv.

(** [import.meta.env.PROD] *)
Context (PROD : bool).
Context (net : network).

Definition API_URL : string := if PROD then "" else "http://localhost:8002".

(** The headers of [axios.create], under those of the call. *)
Definition with_defaults (r : request) : request :=
  Req (method r) (API_URL +:+ path r)
      (headers r ∪ {[ "Content-Type" := "application/json" ]})
      (params r) (body r).

(** The request interceptor. It writes to the configuration of the one
    request it is given, which axios merges afresh for every call; the
    header it sets does not outlive that request. *)
Definition request_interceptor (ls : storage) (config : request) : request :=
  match ls !! "token" with
  | Some token =>
      if negb (String.eqb token "")
      then Req (method config) (path config)
               (<["Authorization" := "Bearer " +:+ token]> (headers config))
               (params config) (body config)
      else config
  | None => config
  end.

(** The request as it leaves the [api] instance. *)
Definition outgoing (ls : storage) (r : request) : request :=
  request_interceptor ls (with_defaults r).

(** A call through the instance. The response interceptor returns the
    response as it is and rejects with the error it was given. *)
Definition call (r : request) (ls : storage) : outcome * storage :=
  net (outgoing ls r) ls.

Definition get (url : string) (ps : list (string * value)) : storage -> outcome * storage :=
  call (Req "GET" url ∅ ps VUndefined).

Definition post (url : string) (data : value) : storage -> outcome * storage :=
  call (Req "POST" url ∅ [] data).

(** *** authService *)

Definition logout (ls : storage) : outcome * storage :=
  let '(_, ls1) := post "/api/auth/logout" VUndefined ls in
  (Resolved VUndefined, delete "agent" (delete "token" ls1)).

Definition getMe : storage -> outcome * storage :=
  get "/api/auth/me" [].

(** *** conversationsService *)

Definition list_conversations (ps : list (string * value)) : storage -> outcome * storage :=
  get "/api/conversations" ps.

Definition getQueue (sector : value) : storage -> outcome * storage :=
  get "/api/conversations/queue"
      (if truthy sector then [("sector", sector)] else []).

Definition accept (id : value) : storage -> outcome * storage :=
  post ("/api/conversations/" +:+ to_string id +:+ "/accept") VUndefined.

Definition resolve (id : value) : storage -> outcome * storage :=
  post ("/api/conversations/" +:+ to_string id +:+ "/resolve") VUndefined.

(** The shape the read-side services share:
    [try { return (await api.get(..)).data } catch { return default }]. *)
Definition recover (default : value) (r : outcome * storage) : outcome * storage :=
  match r with
  | (Resolved data, ls1) => (Resolved data, ls1)
  | (Rejected _, ls1) => (Resolved default, ls1)
  end.

Definition stats_default : value :=
  VObj [("by_status", VObj []); ("by_sector", VObj []); ("queues", VObj [])].

Definition getStats (ls : storage) : outcome * storage :=
  recover stats_default (get "/api/conversations/stats/summary" [] ls).

(** *** messagesService *)

Definition messages_default : value := VObj [("messages", VArr [])].

Definition getByConversation (conversationId : value) (ps : list (string * value))
    (ls : storage) : outcome * storage :=
  recover messages_default
    (get ("/api/messages/conversation/" +:+ to_string conversationId) ps ls).

(** *** agentsService *)

Definition agents_default : value := VObj [("agents", VArr [])].

Definition list_agents (sector : value) (ls : storage) : outcome * storage :=
  recover agents_default
    (get "/api/agents" (if truthy sector then [("sector", sector)] else []) ls).

Definition getOnline (ls : storage) : outcome * storage :=
  recover agents_default (get "/api/agents/online" [] ls).

End WithEnv.

End Api.

(* ===================================================================== *)
(** ** pages/Dashboard.jsx *)
(* ===================================================================== *)

Module Dashboard.

(** [activeTab]: 'all', 'queue', 'mine'. *)
Inductive tab := TabAll | TabQueue | TabMine.

Global Instance tab_eq_dec : EqDecision tab.
Proof. solve_decision. Defined.

(** The calls of services/api.js the page makes. *)
Inductive service_call :=
  | ListConversations (params : list (string * value))
  | GetQueue (sector : value)
  | GetMessages (conversationId : value).

(** The HTTP request behind a call. *)
Definition request_of (c : service_call) : Api.request :=
  match c with
  | ListConversations ps => Api.Req "GET" "/api/conversations" ∅ ps VUndefined
  | GetQueue sec =>
      Api.Req "GET" "/api/conversations/queue" ∅
              (if truthy sec then [("sector", sec)] else []) VUndefined
  | GetMessages id =>
      Api.Req "GET" ("/api/messages/conversation/" +:+ to_string id) ∅ [] VUndefined
  end.

Inductive effect :=
  | Ws (e : Hook.effect)                 (* what the hook did *)
  | Request (c : service_call)           (* a service call is started *)
  | StartPolling (ms : Z) (t : tab)      (* setInterval(loadConversations, ms) *)
  | StopPolling.                         (* clearInterval(interval) *)

Record state := State {
  hook : Hook.state;
  conversations : value;
  selectedConversationRef : value;
  messages : value;
  activeTab : tab;
  polling : option tab;     (* the tab the armed [loadConversations] closed over *)
  queueSizes : value;
  error : value;
  loading : bool;
}.

Definition init : state :=
  {| hook := Hook.init; conversations := VArr []; selectedConversationRef := VNull;
     messages := VArr []; activeTab := TabAll; polling := None;
     queueSizes := VObj []; error := VNull; loading := true |}.

Definition set_hook (h : Hook.state) (s : state) : state :=
  {| hook := h; conversations := conversations s;
     selectedConversationRef := selectedConversationRef s; messages := messages s;
     activeTab := activeTab s; polling := polling s; queueSizes := queueSizes s;
     error := error s; loading := loading s |}.

Definition setConversations (v : value) (s : state) : state :=
  {| hook := hook s; conversations := v;
     selectedConversationRef := selectedConversationRef s; messages := messages s;
     activeTab := activeTab s; polling := polling s; queueSizes := queueSizes s;
     error := error s; loading := loading s |}.

Definition setMessages (v : value) (s : state) : state :=
  {| hook := hook s; conversations := conversations s;
     selectedConversationRef := selectedConversationRef s; messages := v;
     activeTab := activeTab s; polling := polling s; queueSizes := queueSizes s;
     error := error s; loading := loading s |}.

Definition setQueueSizes (v : value) (s : state) : state :=
  {| hook := hook s; conversations := conversations s;
     selectedConversationRef := selectedConversationRef s; messages := messages s;
     activeTab := activeTab s; polling := polling s; queueSizes := v;
     error := error s; loading := loading s |}.

Definition setError (v : value) (s : state) : state :=
  {| hook := hook s; conversations := conversations s;
     selectedConversationRef := selectedConversationRef s; messages := messages s;
     activeTab := activeTab s; polling := polling s; queueSizes := queueSizes s;
     error := v; loading := loading s |}.

Definition setLoading (b : bool) (s : state) : state :=
  {| hook := hook s; conversations := conversations s;
     selectedConversationRef := selectedConversationRef s; messages := messages s;
     activeTab := activeTab s; polling := polling s; queueSizes := queueSizes s;
     error := error s; loading := b |}.

Definition set_tab (t : tab) (p : option tab) (s : state) : state :=
  {| hook := hook s; conversations := conversations s;
     selectedConversationRef := selectedConversationRef s; messages := messages s;
     activeTab := t; polling := p; queueSizes := queueSizes s;
     error := error s; loading := loading s |}.

Definition select (c : value) (s : state) : state :=
  {| hook := hook s; conversations := conversations s;
     selectedConversationRef := c; messages := messages s;
     activeTab := activeTab s; polling := polling s; queueSizes := queueSizes s;
     error := error s; loading := loading s |}.

(** *** loadConversations, split at its [await] *)

Definition loadConversations_call (t : tab) : service_call :=
  match t with
  | TabQueue => GetQueue VUndefined
  | TabMine => ListConversations [("status", VStr "in_progress")]
  | TabAll => ListConversations []
  end.

Definition loadConversations_start (t : tab) (s : state) : state * list effect :=
  (setError VNull s, [Request (loadConversations_call t)]).

(** The [catch] block. *)
Definition load_failed (err : value) (s : state) : state :=
  let detail := opt_prop (opt_prop (opt_prop err "response") "data") "detail" in
  let msg := JS.or_else (JS.or_else detail (opt_prop err "message")) (VStr "Erro deconhecido") in
  setError (VStr ("Erro: " +:+ to_string msg)) s.

Section Settle.

(** The TypeError the engine throws on a property read of null. *)
Context (type_error : value).

Definition loadConversations_settle (t : tab) (o : Api.outcome) (s : state) : state :=
  setLoading false
    match o with
    | Api.Resolved data =>
        match t with
        | TabQueue =>
            match prop data "queue_sizes", prop data "queue" with
            | Some qs, Some q =>
                setConversations (JS.or_else q (VArr [])) (setQueueSizes (JS.or_else qs (VObj [])) s)
            | _, _ => load_failed type_error s
            end
        | _ =>
            match prop data "conversations" with
            | Some cs => setConversations (JS.or_else cs (VArr [])) s
            | None => load_failed type_error s
            end
        end
    | Api.Rejected err => load_failed err s
    end.

End Settle.

(** *** loadMessages, split at its [await] *)

(** Both effects keyed on [selectedConversation] guard on it. *)
Definition loadMessages_start (selected : value) : list effect :=
  if truthy selected then [Request (GetMessages (opt_prop selected "id"))] else [].

Definition loadMessages_settle (o : Api.outcome) (s : state) : state :=
  match o with
  | Api.Resolved data =>
      match prop data "messages" with
      | Some ms => setMessages (JS.or_else ms (VArr [])) s
      | None => s
      end
  | Api.Rejected _ => s
  end.

(** *** handleWebSocketMessage *)

(** [prev.some(m => m.id === data.message.id)]; [None] is a TypeError. *)
Fixpoint message_exists (prev : list value) (data : value) : option bool :=
  match prev with
  | [] => Some false
  | m :: rest =>
      mid ← prop m "id";
      msg ← prop data "message";
      nid ← prop msg "id";
      if strict_eq mid nid then Some true else message_exists rest data
  end.

(** The updater given to [setMessages]. *)
Definition add_message (data : value) (prev : value) : option value :=
  match prev with
  | VArr l =>
      ex ← message_exists l data;
      if ex : bool then Some prev
      else msg ← prop data "message"; Some (VArr (l ++ [msg]))
  | _ => None
  end.

(** The handler is created once ([useCallback] with no dependencies), so
    the [loadConversations] it calls is the one of the first render, which
    closed over the initial tab. [None] is a TypeError raised by the
    [setMessages] updater, which React runs outside the handler. *)
Definition handleWebSocketMessage (data : value) (s : state)
  : option (state * list effect) :=
  match prop data "type" with
  | None => Some (s, [])
  | Some ty =>
      if strict_eq ty (VStr "new_message") then
        let currentConvId := opt_prop (selectedConversationRef s) "id" in
        let messageConvId := opt_prop data "conversation_id" in
        if truthy currentConvId
           && String.eqb (to_string currentConvId) (to_string messageConvId)
        then
          msgs ← add_message data (messages s);
          Some (loadConversations_start TabAll (setMessages msgs s))
        else Some (loadConversations_start TabAll s)
      else if strict_eq ty (VStr "new_conversation") then
        Some (loadConversations_start TabAll s)
      else if strict_eq ty (VStr "queue_update") then
        Some (setQueueSizes (JS.or_else (opt_prop data "queue_sizes") (VObj [])) s, [])
      else Some (s, [])
  end.

(** *** The queue badge *)



(** *** The page as a whole *)

Section Page.

(** The [agent] prop and the part of [window.location] the hook reads. *)
Context (agent : value) (protocol hostname : string).
Context (valid_url : string -> bool).
Context (type_error : value).

Definition hook_props : Hook.props :=
  {| Hook.agentId := opt_prop agent "id";
     Hook.sector := JS.or_else (opt_prop agent "sector") (VStr "comercial");
     Hook.has_onMessage := true;
     Hook.protocol := protocol;
     Hook.hostname := hostname |}.

Inductive event :=
  | Mounted                                  (* first render: both effects run *)
  | Torn                                     (* the page is unmounted *)
  | FromHook (e : Hook.event)                (* anything that reaches the hook *)
  | PollTick                                 (* the 10 s interval comes due *)
  | TabClicked (t : tab)
  | Settled (t : tab) (o : Api.outcome)      (* a [loadConversations] call returns *)
  | Selected (c : value)                     (* setSelectedConversation(c) *)
  | MessagesTick                             (* the 3 s interval comes due *)
  | MessagesSettled (o : Api.outcome).       (* a [loadMessages] call returns *)

(** The hook's effects pass through; its [onMessage] calls run the
    handler. *)
Fixpoint deliver (es : list Hook.effect) (s : state) : option (state * list effect) :=
  match es with
  | [] => Some (s, [])
  | Hook.OnMessage data :: rest =>
      '(s1, e1) ← handleWebSocketMessage data s;
      '(s2, e2) ← deliver rest s1;
      Some (s2, Ws (Hook.OnMessage data) :: e1 ++ e2)
  | e :: rest =>
      '(s2, e2) ← deliver rest s;
      Some (s2, Ws e :: e2)
  end.

Definition hook_step (e : Hook.event) (s : state) : option (state * list effect) :=
  let '(h, es) := Hook.step hook_props valid_url (hook s) e in
  deliver es (set_hook h s).

Definition poll_ms : Z := 10000.

(** The effect keyed on [activeTab]: load now, then every [poll_ms]. *)
Definition start_polling (t : tab) (s : state) : state * list effect :=
  let '(s1, e1) := loadConversations_start t s in
  (set_tab t (Some t) s1, e1 ++ [StartPolling poll_ms t]).

Definition step (s : state) (ev : event) : option (state * list effect) :=
  match ev with
  | Mounted =>
      '(s1, e1) ← hook_step Hook.Mount s;
      let '(s2, e2) := start_polling (activeTab s1) s1 in
      Some (s2, e1 ++ e2)
  | Torn =>
      '(s1, e1) ← hook_step Hook.Unmount s;
      Some (set_tab (activeTab s1) None s1, e1 ++ [StopPolling])
  | FromHook e => hook_step e s
  | PollTick =>
      match polling s with
      | Some t => Some (loadConversations_start t s)
      | None => Some (s, [])
      end
  | TabClicked t =>
      if decide (t = activeTab s) then Some (s, [])
      else let '(s1, e1) := start_polling t s in Some (s1, StopPolling :: e1)
  | Settled t o => Some (loadConversations_settle type_error t o s, [])
  | Selected c => Some (select c s, loadMessages_start c)
  | MessagesTick => Some (s, loadMessages_start (selectedConversationRef s))
  | MessagesSettled o => Some (loadMessages_settle o s, [])
  end.

Fixpoint run (s : state) (evs : list event) : option (state * list effect) :=
  match evs with
  | [] => Some (s, [])
  | ev :: rest =>
      '(s1, e1) ← step s ev;
      '(s2, e2) ← run s1 rest;
      Some (s2, e1 ++ e2)
  end.

End Page.

(** *** Reading a trace of effects *)








(** *** Two sentences of the specification, as they are worded *)



End Dashboard.

(* ===================================================================== *)
(** ** The dispatcher: claim and resolve *)
(* ===================================================================== *)

(** The client only posts to [/api/conversations/{id}/accept] and
    [/api/conversations/{id}/resolve]; the transitions themselves run in
    the backend. *)

Module Dispatcher.

(** Modelled from the spec: the statuses of a conversation (§3); the
    backend model that declares them is not among the sources. The client
    knows the same five (the labels of [getStatusLabel]). *)
Inductive status := bot_handling | waiting_queue | in_progress | resolved | closed.

Global Instance status_eq_dec : EqDecision status.
Proof. solve_decision. Defined.

(** Modelled from the spec: the error taxonomy of §7; the backend raises
    them and is not among the sources. *)
Inductive error := InvalidStateTransition | AlreadyClaimed | PermissionDenied | NotFound.

Global Instance error_eq_dec : EqDecision error.
Proof. solve_decision. Defined.

Definition agent := nat.
Definition conv_id := nat.
Definition sector := string.

(** Modelled from the spec: the Conversation record of the data model (§3);
    the backend model that declares it is not among the sources. *)
Record conversation := Conversation {
  lead : nat;
  conv_sector : sector;
  conv_status : status;
  assigned_agent : option agent;
  started_at : Z;
  resolved_at : option Z;
}.

(** Modelled from the spec: the Conversation Store together with the
    Sector Queue Manager's per-sector FIFO queues (§2, §3), oldest first;
    the backend state is not among the sources. *)
Record state := State {
  store : gmap nat conversation;
  queues : gmap string (list conv_id);
}.

(** Modelled from the spec: what a state-changing request returns, the
    updated state or a structured error (§6, §7). *)
Inductive result :=
  | Ok (st : state)
  | Err (e : error).

(** Modelled from the spec: a failed operation leaves all state untouched
    (§4.1, all-or-nothing). *)
Definition apply (r : result) (st : state) : state :=
  match r with Ok st' => st' | Err _ => st end.

Definition queue_of (sec : sector) (st : state) : list conv_id :=
  default [] (queues st !! sec).

Definition status_of (c : conv_id) (st : state) : option status :=
  conv_status <$> store st !! c.

Definition assignee_of (c : conv_id) (st : state) : option agent :=
  store st !! c ≫= assigned_agent.

(** Modelled from the spec: [enqueue(sector, conversation_id)] of §4.2,
    which appends and is a no-op when the conversation is already present;
    the queue manager is not among the sources. *)
Definition enqueue (sec : sector) (c : conv_id) (st : state) : state :=
  if decide (c ∈ queue_of sec st) then st
  else State (store st) (<[sec := queue_of sec st ++ [c]]> (queues st)).

(** Modelled from the spec: [dequeue_for_claim(sector, conversation_id,
    claiming_agent)] of §4.2: one atomic step that checks the conversation
    is still in the queue and still in [waiting_queue], removes it and
    succeeds, and otherwise fails with [AlreadyClaimed]. The queue manager
    is not among the sources. *)
Definition dequeue_for_claim (sec : sector) (c : conv_id) (a : agent) (st : state)
  : result :=
  if decide (c ∈ queue_of sec st ∧ status_of c st = Some waiting_queue)
  then Ok (State (store st)
                 (<[sec := filter (fun x => x ≠ c) (queue_of sec st)]> (queues st)))
  else Err AlreadyClaimed.

(** Modelled from the spec: the transition [waiting_queue → in_progress]
    of §4.1, taken by the handler of [POST /api/conversations/{id}/accept]
    (the backend route is not among the sources): an unknown conversation
    is [NotFound]; the claim of §4.2 arbitrates; the winner is assigned.
    Who may attempt a claim (the sector policy, whose failure §9 leaves
    open) is settled before this step and is not part of it. *)
Definition claim (c : conv_id) (a : agent) (st : state) : result :=
  match store st !! c with
  | None => Err NotFound
  | Some cv =>
      match dequeue_for_claim (conv_sector cv) c a st with
      | Err e => Err e
      | Ok st1 =>
          Ok (State (<[c := Conversation (lead cv) (conv_sector cv) in_progress (Some a)
                                         (started_at cv) (resolved_at cv)]> (store st1))
                    (queues st1))
      end
  end.

(** Modelled from the spec: the transition [in_progress → resolved] of
    §4.1, taken by the handler of [POST /api/conversations/{id}/resolve]
    (the backend route is not among the sources): from any other status it
    is an [InvalidStateTransition], by any agent but the assigned one it is
    [PermissionDenied]; the assignment ends with the status (§3:
    [assigned_agent] is set iff the status is [in_progress]). *)
Definition resolve (c : conv_id) (a : agent) (now : Z) (st : state) : result :=
  match store st !! c with
  | None => Err NotFound
  | Some cv =>
      if decide (conv_status cv = in_progress) then
        if decide (assigned_agent cv = Some a) then
          Ok (State (<[c := Conversation (lead cv) (conv_sector cv) resolved None
                                         (started_at cv) (Some now)]> (store st))
                    (queues st))
        else Err PermissionDenied
      else Err InvalidStateTransition
  end.

(** Modelled from the spec: concurrent claim attempts on one conversation
    (§5). The claim is a single atomic section per conversation, so a
    concurrent run is the attempts' sections entered in some order, each
    seeing the state the previous one left; the list is that order. The
    bounded wait of §5 is not modelled. *)
Fixpoint claims (c : conv_id) (agents : list agent) (st : state)
  : list (agent * result) * state :=
  match agents with
  | [] => ([], st)
  | a :: rest =>
      let r := claim c a st in
      let '(rs, st') := claims c rest (apply r st) in
      ((a, r) :: rs, st')
  end.

(** Modelled from the spec: the invariants of the data model (§3, §8):
    a conversation has an agent exactly when it is in progress, it is in
    the queue of its sector exactly when it waits, and a queue holds only
    conversations of its sector. *)
Definition consistent (st : state) : Prop :=
  (∀ c cv, store st !! c = Some cv →
     (is_Some (assigned_agent cv) ↔ conv_status cv = in_progress)
     ∧ (c ∈ queue_of (conv_sector cv) st ↔ conv_status cv = waiting_queue))
  ∧ (∀ sec c, c ∈ queue_of sec st →
       ∃ cv, store st !! c = Some cv ∧ conv_sector cv = sec).



End Dispatcher.

(* ===================================================================== *)
(** ** Concrete runs *)
(* ===================================================================== *)

Module Demo.

(** An agent with id 7 of sector comercial, on an https page. *)
Definition agent : value :=
  VObj [("id", VNum 7); ("name", VStr "Ana"); ("sector", VStr "comercial")].

Definition props : Hook.props :=
  Hook.Props (VNum 7) (VStr "comercial") true "https:" "crm.example".

Definition any_url (_ : string) : bool := true.

(** The hook right after mounting: socket 0 is connecting. *)
Definition mounted : Hook.state :=
  fst (Hook.step props any_url Hook.init Hook.Mount).

(** The hook once socket 0 has opened: heartbeat 1 is armed. *)
Definition open : Hook.state :=
  fst (Hook.step props any_url mounted (Hook.SocketOpen 0%nat)).

(** The page over that hook, polling for the tab 'all'. *)
Definition page : Dashboard.state :=
  Dashboard.set_tab Dashboard.TabAll (Some Dashboard.TabAll)
    (Dashboard.set_hook open Dashboard.init).

Definition type_error : value :=
  VObj [("message", VStr "Cannot read properties of null")].

(** Conversation 1 waits in the queue of comercial; conversation 2 is
    in progress with agent 10. *)
Definition waiting : Dispatcher.conversation :=
  Dispatcher.Conversation 100 "comercial" Dispatcher.waiting_queue None 0 None.

Definition assigned : Dispatcher.conversation :=
  Dispatcher.Conversation 101 "rh" Dispatcher.in_progress (Some 10%nat) 5 None.

Definition dispatcher : Dispatcher.state :=
  Dispatcher.State (<[1%nat := waiting]> (<[2%nat := assigned]> ∅))
                   (<["comercial" := [1%nat]]> ∅).

End Demo.

(* ===================================================================== *)
(** ** More of the value fragment: object spread *)
(* ===================================================================== *)

Module Spread.

(** The own enumerable properties a spread [{...v}] copies: those of an
    object, the indexed elements of an array or string, none of the other
    primitives. *)
Definition own_entries (v : value) : list (string * value) :=
  match v with
  | VObj fs => fs
  | VArr l => imap (fun i x => (pretty i, x)) l
  | VStr s =>
      imap (fun i c => (pretty i, VStr (String c ""))) (String.list_ascii_of_string s)
  | _ => []
  end.

(** Assignment of a named property: in place when the key is there, at the
    end when it is new. *)
Fixpoint set_key (k : string) (v : value) (fs : list (string * value))
  : list (string * value) :=
  match fs with
  | [] => [(k, v)]
  | (k', v') :: rest =>
      if String.eqb k k' then (k, v) :: rest else (k', v') :: set_key k v rest
  end.

(** [{...base, k: v}] *)
Definition with_key (base : value) (k : string) (v : value) : value :=
  VObj (set_key k v (own_entries base)).

End Spread.

(* ===================================================================== *)
(** ** hooks/useWebSocket.js: a server that keeps failing *)
(* ===================================================================== *)

Module Outage.

(** The socket a frame goes out on: the one held in [wsRef], if it is
    open. *)
Definition current_open (s : Hook.state) : option Hook.ws_id :=
  ws ← Hook.wsRef s;
  w ← Hook.sockets s !! ws;
  if decide (Hook.readyState w = Hook.OPEN) then Some ws else None.

Section WithProps.

Context (p : Hook.props) (valid_url : string -> bool).

(** One round of an outage: the socket the hook holds closes with the
    given code, then the timer armed by that close comes due. *)
Definition round (code : Z) (s : Hook.state) : Hook.state * list Hook.effect :=
  Hook.run p valid_url s
    [Hook.SocketClose (default 0%nat (Hook.wsRef s)) code "";
     Hook.TimerFire (Hook.next_timer s)].

(** Rounds in a row, one per close code. *)
Fixpoint rounds (codes : list Z) (s : Hook.state) : Hook.state * list Hook.effect :=
  match codes with
  | [] => (s, [])
  | code :: rest =>
      let '(s1, e1) := round code s in
      let '(s2, e2) := rounds rest s1 in
      (s2, e1 ++ e2)
  end.

End WithProps.

End Outage.

(* ===================================================================== *)
(** ** services/api.js: the remaining services *)
(* ===================================================================== *)

Module Services.

Section WithEnv.

Context (PROD : bool) (net : Api.network).

(** [api.put(url)] *)
Definition put (url : string) : Api.storage -> Api.outcome * Api.storage :=
  Api.call PROD net (Api.Req "PUT" url ∅ [] VUndefined).

(** The [URLSearchParams] of [login], as its list of entries; [append]
    stores the string of what it is given. *)
Definition login_form (email password : value) : value :=
  VObj [("username", VStr (to_string email)); ("password", VStr (to_string password))].

Definition login_request (email password : value) : Api.request :=
  Api.Req "POST" "/api/auth/login"
          {[ "Content-Type" := "application/x-www-form-urlencoded" ]}
          [] (login_form email password).

(** [authService.login] *)
Definition login (email password : value) : Api.storage -> Api.outcome * Api.storage :=
  Api.call PROD net (login_request email password).

(** [conversationsService.get] *)
Definition get_conversation (id : value) : Api.storage -> Api.outcome * Api.storage :=
  Api.get PROD net ("/api/conversations/" +:+ to_string id) [].

(** [conversationsService.close] *)
Definition close (id : value) : Api.storage -> Api.outcome * Api.storage :=
  Api.post PROD net ("/api/conversations/" +:+ to_string id +:+ "/close") VUndefined.

(** [messagesService.send] *)
Definition send (conversationId content : value) : Api.storage -> Api.outcome * Api.storage :=
  Api.post PROD net "/api/messages/send"
           (VObj [("conversation_id", conversationId); ("content", content)]).

(** [messagesService.markAsRead] *)
Definition markAsRead (messageId : value) : Api.storage -> Api.outcome * Api.storage :=
  put ("/api/messages/" +:+ to_string messageId +:+ "/read").

End WithEnv.

End Services.

(* ===================================================================== *)
(** ** pages/Dashboard.jsx: the handlers of the chat panel *)
(* ===================================================================== *)

Module Handlers.

(** The state-changing service calls the handlers make. *)
Inductive call :=
  | Accept (id : value)
  | Resolve (id : value)
  | SendMessage (conversationId : value) (content : string).

Inductive effect :=
  | Page (e : Dashboard.effect)      (* an effect of the page as before *)
  | Call (c : call)                  (* a service call is started *)
  | Alert (msg : value).             (* alert(msg) *)

(** The page with the draft of the message box. The selected conversation
    is the one of [Dashboard.selectedConversationRef]. *)
Record state := State {
  page : Dashboard.state;
  newMessage : string;
  sending : bool;
}.

Definition selectedConversation (s : state) : value :=
  Dashboard.selectedConversationRef (page s).

Definition set_page (pg : Dashboard.state) (s : state) : state :=
  State pg (newMessage s) (sending s).

Definition setNewMessage (m : string) (s : state) : state :=
  State (page s) m (sending s).

Definition setSending (b : bool) (s : state) : state :=
  State (page s) (newMessage s) b.

(** [error.response?.data?.detail] *)
Definition detail (err : value) : value :=
  opt_prop (opt_prop (opt_prop err "response") "data") "detail".

(** The calls of the actions that await [loadConversations] or
    [loadMessages]. *)
Definition pages (es : list Dashboard.effect) : list effect := map Page es.

Section WithTrim.

(** [!newMessage.trim()]: whether the draft is empty or all white space. *)
Context (blank : string -> bool).

(** *** handleSendMessage, split at its awaits *)

Definition handleSendMessage (s : state) : state * list effect :=
  if blank (newMessage s) || negb (truthy (selectedConversation s)) || sending s
  then (s, [])
  else (setSending true s,
        [Call (SendMessage (opt_prop (selectedConversation s) "id") (newMessage s))]).

(** [messagesService.send] has settled; [selected] is the conversation the
    handler closed over. *)
Definition send_settled (selected : value) (o : Api.outcome) (s : state)
  : state * list effect :=
  match o with
  | Api.Resolved _ =>
      (setNewMessage "" s,
       [Page (Dashboard.Request (Dashboard.GetMessages (opt_prop selected "id")))])
  | Api.Rejected _ =>
      (setSending false s, [Alert (VStr "Erro ao enviar mensagem")])
  end.

(** The awaited [loadMessages] has settled; then the [finally]. *)
Definition send_reloaded (o : Api.outcome) (s : state) : state :=
  setSending false (set_page (Dashboard.loadMessages_settle o (page s)) s).

End WithTrim.

(** *** handleAcceptConversation, split at its awaits *)

Definition handleAcceptConversation (conversation : value) (s : state)
  : state * list effect :=
  match prop conversation "id" with
  | Some id => (s, [Call (Accept id)])
  | None => (s, [Alert (VStr "Erro ao aceitar conversa")])
  end.

(** [conversationsService.accept] has settled; [t] is the tab that was
    active when the handler was created. After the re-render the effects
    keyed on the selection load its messages. *)
Definition accept_settled (conversation : value) (t : Dashboard.tab)
    (o : Api.outcome) (s : state) : state * list effect :=
  match o with
  | Api.Resolved _ =>
      let c := Spread.with_key conversation "status" (VStr "in_progress") in
      let '(pg, es) := Dashboard.loadConversations_start t (Dashboard.select c (page s)) in
      (set_page pg s, pages (es ++ Dashboard.loadMessages_start c))
  | Api.Rejected err =>
      (s, [Alert (or_else (detail err) (VStr "Erro ao aceitar conversa"))])
  end.

(** *** handleResolveConversation, split at its awaits *)

(** [answer] is what the user answers if [confirm] asks. *)
Definition handleResolveConversation (answer : bool) (s : state)
  : state * list effect :=
  if negb (truthy (selectedConversation s)) then (s, [])
  else if negb answer then (s, [])
  else (s, [Call (Resolve (opt_prop (selectedConversation s) "id"))]).

Definition resolve_settled (t : Dashboard.tab) (o : Api.outcome) (s : state)
  : state * list effect :=
  match o with
  | Api.Resolved _ =>
      let '(pg, es) := Dashboard.loadConversations_start t (Dashboard.select VNull (page s)) in
      (set_page pg s, pages (es ++ Dashboard.loadMessages_start VNull))
  | Api.Rejected _ => (s, [])
  end.

(** *** What the chat header and footer offer *)

Definition status_is (c : value) (st : string) : bool :=
  strict_eq (opt_prop c "status") (VStr st).

(** The two buttons that call [handleAcceptConversation]. *)
Definition offers_accept (c : value) : bool :=
  truthy c && (status_is c "waiting_queue" || status_is c "bot_handling").

Definition offers_resolve (c : value) : bool :=
  truthy c && status_is c "in_progress".

(** The message box. *)
Definition offers_input (c : value) : bool :=
  truthy c && (status_is c "in_progress" || status_is c "bot_handling").

(** The calls among the effects. *)
Definition calls (es : list effect) : list call :=
  omap (fun e => match e with Call c => Some c | _ => None end) es.

Definition alerts (es : list effect) : list value :=
  omap (fun e => match e with Alert m => Some m | _ => None end) es.

End Handlers.

(* ===================================================================== *)
(** ** App.jsx *)
(* ===================================================================== *)

Module App.

Record state := State {
  agent : value;
  loading : bool;
}.

Definition init : state := State VNull true.

(** A stored entry that is there and not the empty string. *)
Definition present (entry : option string) : bool :=
  match entry with
  | Some s => negb (String.eqb s "")
  | None => false
  end.

Section WithParse.

(** [JSON.parse]; [None] is the SyntaxError. *)
Context (parse : string -> option value).

(** The effect of the first render. *)
Definition mount (st : state) (ls : Api.storage) : state * Api.storage :=
  let storedAgent := ls !! "agent" in
  let token := ls !! "token" in
  if present storedAgent && present token then
    match parse (default "" storedAgent) with
    | Some a => (State a false, ls)
    | None => (State (agent st) false, delete "token" (delete "agent" ls))
    end
  else (State (agent st) false, ls).

End WithParse.

Definition handleLogin (agentData : value) (st : state) : state :=
  State agentData (loading st).

Definition handleLogout (st : state) (ls : Api.storage) : state * Api.storage :=
  (State VNull (loading st), delete "agent" (delete "token" ls)).

(** The four routes of the table, as the router matched them. *)
Inductive route := RLogin | RDashboard | RAgents | RRoot.

Inductive element :=
  | Spinner
  | LoginPage
  | DashboardPage (agent : value)
  | AgentsPage
  | Navigate (to : route).

(** What [App] returns for the matched route. *)
Definition render (st : state) (r : route) : element :=
  if loading st then Spinner
  else match r with
       | RLogin => if truthy (agent st) then Navigate RRoot else LoginPage
       | RDashboard =>
           if truthy (agent st) then DashboardPage (agent st) else Navigate RLogin
       | RAgents => if truthy (agent st) then AgentsPage else Navigate RLogin
       | RRoot => if truthy (agent st) then Navigate RDashboard else Navigate RLogin
       end.

(** Following the redirects, at most [hops] of them. *)
Fixpoint land (hops : nat) (st : state) (r : route) : option element :=
  match render st r with
  | Navigate r' =>
      match hops with
      | O => None
      | S h => land h st r'
      end
  | e => Some e
  end.

End App.

(* ===================================================================== *)
(** ** pages/Agents.jsx *)
(* ===================================================================== *)

Module Agents.

Record state := State {
  agents : value;
  loading : bool;
  showForm : bool;
  formData : value;
  error : value;
  success : value;
}.

Definition blank_form : value :=
  VObj [("name", VStr ""); ("email", VStr ""); ("password", VStr "");
        ("sector", VStr "comercial")].

Definition init : state :=
  State (VArr []) true false blank_form (VStr "") (VStr "").

(** The requests the page makes on the [api] instance itself. *)
Inductive effect :=
  | Request (method url : string) (body : value).

Definition setAgents (v : value) (s : state) : state :=
  State v (loading s) (showForm s) (formData s) (error s) (success s).

Definition setLoading (b : bool) (s : state) : state :=
  State (agents s) b (showForm s) (formData s) (error s) (success s).

Definition setError (v : value) (s : state) : state :=
  State (agents s) (loading s) (showForm s) (formData s) v (success s).




(** *** loadAgents, split at its [await] *)


Definition loadAgents_settle (o : Api.outcome) (s : state) : state :=
  setLoading false
    match o with
    | Api.Resolved data =>
        match prop data "agents" with
        | Some a => setAgents (or_else a (VArr [])) s
        | None => s
        end
    | Api.Rejected _ => s
    end.

(** *** handleSubmit *)



(** *** handleDelete; [answer] is what the user answers to [confirm] *)



(** *** handleToggleAdmin *)




End Agents.

(* ===================================================================== *)
(** ** More concrete runs *)
(* ===================================================================== *)

Module Demo2.

(** The page of the demo agent, mounted, then switched to the queue tab. *)
Definition to_queue : option (Dashboard.state * list Dashboard.effect) :=
  Dashboard.run Demo.agent "https:" "crm.example" Demo.any_url Demo.type_error
    Dashboard.init [Dashboard.Mounted; Dashboard.TabClicked Dashboard.TabQueue].

Definition queue_page : Dashboard.state :=
  fst (default (Dashboard.init, []) to_queue).

(** A draft counts as blank when it holds nothing but spaces. *)
Definition blank (s : string) : bool :=
  forallb (fun c => Ascii.eqb c " "%char) (String.list_ascii_of_string s).

(** The page with conversation 5 open and the draft "oi". *)
Definition chat : Handlers.state :=
  Handlers.State
    (Dashboard.select (VObj [("id", VNum 5); ("status", VStr "in_progress")]) Demo.page)
    "oi" false.

(** A server that is down, and one that answers every request with an
    empty object. *)
Definition down : Api.network :=
  fun _ ls => (Api.Rejected (VObj [("message", VStr "Network Error")]), ls).

Definition up : Api.network :=
  fun _ ls => (Api.Resolved (VObj []), ls).


End Demo2.

(* ===================================================================== *)
(** * Properties *)
(* ===================================================================== *)

(** ** Sanity checks of the value fragment *)

Example stringify_ping :
  stringify (VObj [("type", VStr "ping")])
  = Some ("{" +:+ String dq "type" +:+ String dq ":" +:+ String dq "ping" +:+ String dq "}").
Proof. reflexivity. Qed.

Example to_string_examples :
  to_string (VNum 42) = "42" /\ to_string (VNum (-7)) = "-7"
  /\ to_string (VArr [VNum 1; VNull; VStr "a"]) = "1,,a"
  /\ JS.add (VNum 2) (VNum 3) = VNum 5
  /\ JS.add (VNum 2) (VStr "3") = VStr "23"
  /\ JS.add (VNum 2) VUndefined = VNaN.
Proof. repeat split; reflexivity. Qed.


(** ** The connection hook *)

Section HookFacts.

Context (p : Hook.props) (valid_url : string -> bool).

Local Abbreviation step := (Hook.step p valid_url).
Local Abbreviation run := (Hook.run p valid_url).
Local Abbreviation connect := (Hook.connect p valid_url).

Lemma run_app s evs1 evs2 :
  run s (evs1 ++ evs2)
  = let '(s1, e1) := run s evs1 in
    let '(s2, e2) := run s1 evs2 in (s2, e1 ++ e2).
Proof.
  revert s. induction evs1 as [|ev evs1 IH]; intros s; simpl.
  - by destruct (run s evs2).
  - destruct (step s ev) as [s1 e1]. rewrite IH.
    destruct (run s1 evs1) as [s2 e2]. destruct (run s2 evs2) as [s3 e3].
    by rewrite (assoc_L (++)).
Qed.

Lemma onclose_effects ws code s :
  snd (Hook.onclose ws code s)
  = match Hook.sockets s !! ws ≫= Hook._pingInterval with
    | Some id => [Hook.ClearInterval id]
    | None => []
    end
    ++ (if decide (code = 1000) then []
        else [Hook.SetTimeout
                (Hook.next_timer s) 3000 Hook.Reconnect]).
Proof.
  unfold Hook.onclose. simpl.
  destruct (Hook.sockets s !! ws ≫= Hook._pingInterval) as [id|]; simpl;
    destruct (Z.eqb_spec code 1000); simpl; case_decide; try done;
    by rewrite ?app_nil_r.
Qed.

Lemma onclose_state ws code s :
  fst (Hook.onclose ws code s)
  = let s1 := Hook.set_isConnected false s in
    let s2 := match Hook.sockets s !! ws ≫= Hook._pingInterval with
              | Some id => Hook.disarm id s1
              | None => s1
              end in
    if decide (code = 1000) then s2
    else Hook.set_reconnectTimeoutRef (Some (Hook.next_timer s))
           (snd (Hook.arm Hook.Timeout 3000 Hook.Reconnect s2)).
Proof.
  unfold Hook.onclose. simpl.
  destruct (Hook.sockets s !! ws ≫= Hook._pingInterval) as [id|]; simpl;
    destruct (Z.eqb_spec code 1000); simpl; case_decide; done.
Qed.

(** The cases of the teardown: a reconnection pending or not, a socket
    held or not, its heartbeat armed or not. *)
Local Ltac cleanup_cases s :=
  unfold Hook.cleanup;
  destruct (Hook.reconnectTimeoutRef s) as [?r|]; simpl;
  destruct (Hook.wsRef s) as [?ws|]; simpl; try done;
  match goal with
  | |- context [?m !! ?ws ≫= Hook._pingInterval] =>
      destruct (m !! ws ≫= Hook._pingInterval) as [?id|]
  end; try done.


Lemma reconnect_delays_cleanup s :
  Hook.reconnect_delays (snd (Hook.cleanup s)) = [].
Proof. cleanup_cases s. Qed.






(** The heartbeat closure leaves the state as it is. *)
Lemma ping_tick_state ws s : fst (Hook.ping_tick ws s) = s.
Proof.
  unfold Hook.ping_tick. destruct (Hook.sockets s !! ws) as [w|]; [|done].
  by case_decide.
Qed.

Lemma ping_tick_effects ws w s :
  Hook.sockets s !! ws = Some w →
  snd (Hook.ping_tick ws s)
  = if decide (Hook.readyState w = Hook.OPEN)
    then [Hook.Send ws Hook.ping_text] else [].
Proof.
  intros Hw. unfold Hook.ping_tick. rewrite Hw. by case_decide.
Qed.

Lemma interval_fire id ms cb s :
  Hook.timers s !! id = Some (Hook.Timer Hook.Interval ms cb) →
  step s (Hook.TimerFire id) = Hook.run_callback p valid_url cb s.
Proof. intros Ht. cbn. by rewrite Ht. Qed.

(** While the interval is armed and the socket open, [n] ticks send [n]
    probes and change nothing. *)
Lemma ticks_while_open id ws w s n :
  Hook.timers s !! id = Some (Hook.Timer Hook.Interval 30000 (Hook.PingTick ws)) →
  Hook.sockets s !! ws = Some w →
  Hook.readyState w = Hook.OPEN →
  run s (replicate n (Hook.TimerFire id))
  = (s, replicate n (Hook.Send ws Hook.ping_text)).
Proof.
  intros Ht Hw Ho. induction n as [|n IH]; [done|].
  cbn [replicate Hook.run]. rewrite (interval_fire _ _ _ _ Ht). cbn [Hook.run_callback].
  pose proof (ping_tick_state ws s) as Hs.
  pose proof (ping_tick_effects ws w s Hw) as He.
  destruct (Hook.ping_tick ws s) as [s1 e1]. simpl in Hs, He. subst s1.
  rewrite IH, He, decide_True by done. done.
Qed.

(** C3. Once a socket opens, its heartbeat is an interval of 30000 ms:
    every tick while the socket is open sends the text [{"type":"ping"}]
    and changes nothing; when the socket closes the interval is cleared, so
    a later tick finds no timer and sends nothing. The tick sends only if
    [readyState] is OPEN: in any state where the interval is armed, it sends
    the probe when the socket is open and nothing otherwise. *)
Theorem C3_heartbeat
    (s : Hook.state) (ws : Hook.ws_id) (w : Hook.websocket) (n : nat)
    (code : Z) (reason : string)
    (s' : Hook.state) (w' : Hook.websocket) (id' : Hook.timer_id)
    (Hw : Hook.sockets s !! ws = Some w)
    (Ht' : Hook.timers s' !! id'
           = Some (Hook.Timer Hook.Interval 30000 (Hook.PingTick ws)))
    (Hw' : Hook.sockets s' !! ws = Some w') :
  let id := Hook.next_timer s in
  let ping := "{" +:+ String dq "type" +:+ String dq ":" +:+ String dq "ping"
                  +:+ String dq "}" in
  let opened := step s (Hook.SocketOpen ws) in
  (snd opened = [Hook.SetInterval id 30000 (Hook.PingTick ws)]
   ∧ Hook.timers (fst opened) !! id
     = Some (Hook.Timer Hook.Interval 30000 (Hook.PingTick ws))
   ∧ Hook.sockets (fst opened) !! ws
     = Some (Hook.WebSocket (Hook.url w) Hook.OPEN (Some id)))
  ∧ snd (run s (Hook.SocketOpen ws :: replicate n (Hook.TimerFire id)
                  ++ [Hook.SocketClose ws code reason; Hook.TimerFire id]))
    = Hook.SetInterval id 30000 (Hook.PingTick ws)
        :: replicate n (Hook.Send ws ping)
        ++ Hook.ClearInterval id
        :: (if decide (code = 1000) then []
            else [Hook.SetTimeout (Pos.succ id) 3000 Hook.Reconnect])
  ∧ Hook.timers
      (fst (run s (Hook.SocketOpen ws :: replicate n (Hook.TimerFire id)
                     ++ [Hook.SocketClose ws code reason]))) !! id = None
  ∧ step s' (Hook.TimerFire id')
    = (s', if decide (Hook.readyState w' = Hook.OPEN)
           then [Hook.Send ws ping] else []).
Proof.
  intros id ping opened.
  assert (Hook.ping_text = ping) as Hping by reflexivity.
  assert (Hopen : opened
    = (Hook.set_pingInterval ws id
         (snd (Hook.arm Hook.Interval 30000 (Hook.PingTick ws)
            (Hook.set_isConnected true (Hook.set_readyState ws Hook.OPEN s)))),
       [Hook.SetInterval id 30000 (Hook.PingTick ws)])) by reflexivity.
  assert (Hsock : Hook.sockets (fst opened) !! ws
                  = Some (Hook.WebSocket (Hook.url w) Hook.OPEN (Some id))).
  { rewrite Hopen. cbn. rewrite !lookup_alter_eq, Hw. done. }
  assert (Htim : Hook.timers (fst opened) !! id
                 = Some (Hook.Timer Hook.Interval 30000 (Hook.PingTick ws))).
  { rewrite Hopen. cbn. by rewrite lookup_insert_eq. }
  split; [by rewrite Hopen|].
  assert (Hticks : run s (Hook.SocketOpen ws :: replicate n (Hook.TimerFire id))
                   = (fst opened, Hook.SetInterval id 30000 (Hook.PingTick ws)
                                    :: replicate n (Hook.Send ws ping))).
  { cbn [Hook.run]. fold opened. rewrite Hopen in Htim, Hsock |- *.
    cbn [fst snd] in *.
    rewrite (ticks_while_open id ws _ _ n Htim Hsock eq_refl). by rewrite Hping. }
  set (closed := step (fst opened) (Hook.SocketClose ws code reason)).
  assert (Hclosed : snd closed
                    = Hook.ClearInterval id
                        :: (if decide (code = 1000) then []
                            else [Hook.SetTimeout (Pos.succ id) 3000 Hook.Reconnect])
                    ∧ Hook.timers (fst closed) !! id = None).
  { subst closed. cbn [Hook.step]. rewrite onclose_effects, onclose_state.
    assert (Hook.sockets (Hook.set_readyState ws Hook.CLOSED (fst opened)) !! ws
              ≫= Hook._pingInterval = Some id) as ->.
    { cbn. rewrite lookup_alter_eq. cbn in Hsock. rewrite Hsock. done. }
    assert (Hook.next_timer (Hook.set_readyState ws Hook.CLOSED (fst opened))
            = Pos.succ id) as ->.
    { reflexivity. }
    split; [done|].
    case_decide; cbn.
    - by rewrite lookup_delete_eq.
    - rewrite lookup_insert_ne by lia. by rewrite lookup_delete_eq. }
  destruct Hclosed as [Hce Hct].
  repeat split.
  - change (Hook.SocketOpen ws :: replicate n (Hook.TimerFire id)
              ++ [Hook.SocketClose ws code reason; Hook.TimerFire id])
      with ((Hook.SocketOpen ws :: replicate n (Hook.TimerFire id))
              ++ [Hook.SocketClose ws code reason; Hook.TimerFire id]).
    rewrite run_app, Hticks. cbn [Hook.run]. fold closed.
    destruct closed as [s2 e2]. cbn [fst snd] in *.
    cbn [Hook.step]. rewrite Hct, Hce. cbn.
    by rewrite !app_nil_r.
  - change (Hook.SocketOpen ws :: replicate n (Hook.TimerFire id)
              ++ [Hook.SocketClose ws code reason])
      with ((Hook.SocketOpen ws :: replicate n (Hook.TimerFire id))
              ++ [Hook.SocketClose ws code reason]).
    rewrite run_app, Hticks. cbn [Hook.run]. fold closed.
    by destruct closed as [s2 e2].
  - rewrite (interval_fire _ _ _ _ Ht'). cbn [Hook.run_callback].
    pose proof (ping_tick_state ws s') as Hs.
    pose proof (ping_tick_effects ws w' s' Hw') as He.
    destruct (Hook.ping_tick ws s') as [s1 e1]. simpl in Hs, He. subst s1.
    by rewrite He, Hping.
Qed.

End HookFacts.

Lemma C3_heartbeat_witness :
  snd (Hook.run Demo.props Demo.any_url Demo.mounted
         [Hook.SocketOpen 0%nat; Hook.TimerFire 1%positive; Hook.TimerFire 1%positive;
          Hook.SocketClose 0%nat 1006 ""; Hook.TimerFire 1%positive])
  = [Hook.SetInterval 1%positive 30000 (Hook.PingTick 0%nat);
     Hook.Send 0%nat Hook.ping_text; Hook.Send 0%nat Hook.ping_text;
     Hook.ClearInterval 1%positive;
     Hook.SetTimeout 2%positive 3000 Hook.Reconnect].
Proof.
  pose proof (C3_heartbeat Demo.props Demo.any_url Demo.mounted 0%nat
                (Hook.WebSocket (Hook.wsUrl Demo.props) Hook.CONNECTING None)
                2 1006 ""
                Demo.open
                (Hook.WebSocket (Hook.wsUrl Demo.props) Hook.OPEN (Some 1%positive))
                1%positive) as H.
  destruct H as (_ & H & _); [vm_compute; reflexivity ..|].
  exact H.
Defined.


(** ** The api instance *)

Section ApiFacts.

Context (PROD : bool) (net : Api.network).

Lemma with_defaults_authorization r :
  Api.headers (Api.with_defaults PROD r) !! "Authorization"
  = Api.headers r !! "Authorization".
Proof.
  cbn. rewrite lookup_union, lookup_singleton_ne by done.
  by destruct (Api.headers r !! "Authorization").
Qed.

(** Without a stored token the interceptor passes the request on as it
    came. *)
Lemma interceptor_without_token (ls : Api.storage) r :
  ls !! "token" = None → Api.request_interceptor ls r = r.
Proof. intros H. unfold Api.request_interceptor. by rewrite H. Qed.

(** With one it adds the bearer header. *)
Lemma interceptor_with_token (ls : Api.storage) tok r :
  ls !! "token" = Some tok → tok ≠ "" →
  Api.headers (Api.request_interceptor ls r) !! "Authorization"
  = Some ("Bearer " +:+ tok).
Proof.
  intros H Hne. unfold Api.request_interceptor. rewrite H.
  destruct (String.eqb_spec tok ""); [done|]. cbn. by rewrite lookup_insert_eq.
Qed.

(** The service calls of the page are these requests through the
    instance. *)
Lemma request_of_call (c : Dashboard.service_call) (ls : Api.storage) :
  Api.call PROD net (Dashboard.request_of c) ls
  = match c with
    | Dashboard.ListConversations ps => Api.list_conversations PROD net ps ls
    | Dashboard.GetQueue sec => Api.getQueue PROD net sec ls
    | Dashboard.GetMessages id =>
        Api.get PROD net ("/api/messages/conversation/" +:+ to_string id) [] ls
    end.
Proof. by destruct c. Qed.

(** C9. Logout always resolves, whatever the server answered and whatever
    happened to [localStorage] while the request was in flight, and when it
    has returned neither 'token' nor 'agent' is stored. From that storage
    the interceptor adds nothing: a request leaves the instance with the
    Authorization header it was given by its caller, and the calls of the
    services, which give none, leave without one. *)
Theorem C9_logout_removes_credentials (ls : Api.storage) :
  let r := Api.logout PROD net ls in
  fst r = Api.Resolved VUndefined
  ∧ snd r !! "token" = None
  ∧ snd r !! "agent" = None
  ∧ snd r = delete "agent" (delete "token" (snd (Api.post PROD net "/api/auth/logout" VUndefined ls)))
  ∧ (∀ req, Api.headers (Api.outgoing PROD (snd r) req) !! "Authorization"
            = Api.headers req !! "Authorization")
  ∧ (∀ url ps, Api.headers (Api.outgoing PROD (snd r) (Api.Req "GET" url ∅ ps VUndefined))
               !! "Authorization" = None)
  ∧ (∀ url data, Api.headers (Api.outgoing PROD (snd r) (Api.Req "POST" url ∅ [] data))
                 !! "Authorization" = None).
Proof.
  intros r. subst r. unfold Api.logout.
  destruct (Api.post PROD net "/api/auth/logout" VUndefined ls) as [o ls1]. cbn [fst snd].
  assert (Htok : delete "agent" (delete "token" ls1) !! "token" = None).
  { rewrite lookup_delete_ne by done. apply lookup_delete_eq. }
  assert (Hout : ∀ req, Api.headers (Api.outgoing PROD (delete "agent" (delete "token" ls1)) req)
                        !! "Authorization" = Api.headers req !! "Authorization").
  { intros req. unfold Api.outgoing.
    rewrite interceptor_without_token by done. apply with_defaults_authorization. }
  repeat split; try done.
  apply lookup_delete_eq.
Qed.

(** C10. The four read-side services never reject: each resolves, with the
    data of the response when the request succeeded and with its fixed
    empty default when the request failed in any way. *)
Theorem C10_read_services_never_reject
    (ls : Api.storage) (conversationId sector : value) (ps : list (string * value)) :
  let settle (default : value) (o : Api.outcome) :=
    match o with
    | Api.Resolved data => Api.Resolved data
    | Api.Rejected _ => Api.Resolved default
    end in
  let sector_params := if truthy sector then [("sector", sector)] else [] in
  fst (Api.getByConversation PROD net conversationId ps ls)
    = settle (VObj [("messages", VArr [])])
        (fst (Api.get PROD net
                ("/api/messages/conversation/" +:+ to_string conversationId) ps ls))
  ∧ fst (Api.getStats PROD net ls)
    = settle (VObj [("by_status", VObj []); ("by_sector", VObj []); ("queues", VObj [])])
        (fst (Api.get PROD net "/api/conversations/stats/summary" [] ls))
  ∧ fst (Api.list_agents PROD net sector ls)
    = settle (VObj [("agents", VArr [])])
        (fst (Api.get PROD net "/api/agents" sector_params ls))
  ∧ fst (Api.getOnline PROD net ls)
    = settle (VObj [("agents", VArr [])])
        (fst (Api.get PROD net "/api/agents/online" [] ls))
  ∧ Forall (fun o => Api.rejects o = false)
      [fst (Api.getByConversation PROD net conversationId ps ls);
       fst (Api.getStats PROD net ls);
       fst (Api.list_agents PROD net sector ls);
       fst (Api.getOnline PROD net ls)].
Proof.
  intros settle sector_params. subst settle sector_params.
  unfold Api.getByConversation, Api.getStats, Api.list_agents, Api.getOnline,
    Api.recover.
  repeat split;
    repeat match goal with |- context [Api.get ?a ?b ?c ?d ?e] =>
      destruct (Api.get a b c d e) as [[?|?] ?] end; try done;
    by repeat constructor.
Qed.

End ApiFacts.


(** ** The page *)

Section DashboardFacts.

Context (agent : value) (protocol hostname : string).
Context (valid_url : string -> bool) (type_error : value).

Local Abbreviation props := (Dashboard.hook_props agent protocol hostname).
Local Abbreviation hook_step := (Dashboard.hook_step agent protocol hostname valid_url).
Local Abbreviation step :=
  (Dashboard.step agent protocol hostname valid_url type_error).
Local Abbreviation run :=
  (Dashboard.run agent protocol hostname valid_url type_error).

Lemma set_hook_hook s : Dashboard.set_hook (Dashboard.hook s) s = s.
Proof. by destruct s. Qed.

Lemma set_hook_twice h h' s :
  Dashboard.set_hook h (Dashboard.set_hook h' s) = Dashboard.set_hook h s.
Proof. done. Qed.






(** A message that parses updates [lastMessage] and is handed to the
    page's handler. *)
Lemma message_step ws data s :
  step s (Dashboard.FromHook (Hook.SocketMessage ws (Some data)))
  = '(s1, es) ← Dashboard.handleWebSocketMessage data
                  (Dashboard.set_hook (Hook.set_lastMessage data (Dashboard.hook s)) s);
    Some (s1, Dashboard.Ws (Hook.OnMessage data) :: es).
Proof.
  cbn. destruct (Dashboard.handleWebSocketMessage data _) as [[s1 es]|]; [|done].
  cbn. by rewrite app_nil_r.
Qed.



End DashboardFacts.



(** ** Live events *)









(** ** Claim and resolve *)

Section DispatcherFacts.

Import Dispatcher.




Lemma queue_of_insert sec sec' q m st :
  queue_of sec' (State m (<[sec := q]> (queues st)))
  = if decide (sec = sec') then q else queue_of sec' st.
Proof.
  unfold queue_of. cbn. rewrite lookup_insert. by case_decide.
Qed.

(** A winning claim keeps the data model consistent. *)
Lemma claim_consistent st c a st1 :
  consistent st → claim c a st = Ok st1 → consistent st1.
Proof.
  intros [Hstore Hqueue]. unfold claim, dequeue_for_claim.
  destruct (store st !! c) as [cv|] eqn:Hc; [|done].
  case_decide as Hw; [|done]. destruct Hw as [Hin Hst]. intros [= <-].
  assert (Hwait : conv_status cv = waiting_queue).
  { unfold status_of in Hst. rewrite Hc in Hst. by injection Hst. }
  split.
  - intros c' cv'. cbn [store]. rewrite lookup_insert. case_decide as Hcc.
    + subst c'. intros [= <-]. cbn. split; [split; [done | by eexists]|].
      rewrite queue_of_insert, decide_True by done.
      split; [|done]. intros Hf. by apply list_elem_of_filter in Hf as [? _].
    + intros Hc'. destruct (Hstore c' cv' Hc') as [Ha Hq]. split; [done|].
      rewrite queue_of_insert.
      case_decide as Hs; [|done]. rewrite <- Hq, <- Hs.
      rewrite list_elem_of_filter. split; [by intros [_ ?] | by intros ?].
  - intros sec c'. rewrite queue_of_insert.
    case_decide as Hs.
    + subst sec. intros Hf. apply list_elem_of_filter in Hf as [Hne Hin'].
      cbn [store]. rewrite lookup_insert_ne by done. by apply Hqueue.
    + intros Hin'. destruct (Hqueue sec c' Hin') as (cv' & Hc' & Hsec).
      cbn [store]. rewrite lookup_insert. case_decide as Hcc; [|by eexists].
      subst c'. rewrite Hc in Hc'. injection Hc' as <-. done.
Qed.

(** So does a resolution. *)
Lemma resolve_consistent st c a now st1 :
  consistent st → resolve c a now st = Ok st1 → consistent st1.
Proof.
  intros [Hstore Hqueue]. unfold resolve.
  destruct (store st !! c) as [cv|] eqn:Hc; [|done].
  case_decide as Hp; [|done]. case_decide as Ha; [|done]. intros [= <-].
  destruct (Hstore c cv Hc) as [_ Hq].
  assert (Hout : c ∉ queue_of (conv_sector cv) st).
  { rewrite Hq, Hp. done. }
  split.
  - intros c' cv'. cbn [store]. rewrite lookup_insert. case_decide as Hcc.
    + subst c'. intros [= <-]. cbn. split; [split; [by intros [? ?] | done]|].
      split; [|done]. intros Hin. by destruct Hout.
    + intros Hc'. exact (Hstore c' cv' Hc').
  - intros sec c' Hin. destruct (Hqueue sec c' Hin) as (cv' & Hc' & Hsec).
    cbn [store]. rewrite lookup_insert. case_decide as Hcc; [|by eexists].
    subst c'. rewrite Hc in Hc'. injection Hc' as <-. by eexists.
Qed.

Example demo_dispatcher_consistent : consistent Demo.dispatcher.
Proof.
  split.
  - intros c cv. unfold Demo.dispatcher, queue_of. cbn [store queues].
    rewrite lookup_insert. case_decide as H1.
    + subst c. intros [= <-]. cbn. rewrite lookup_insert_eq. cbn. split.
      * split; [by intros [? ?] | done].
      * split; [done | intros _; left].
    + rewrite lookup_insert. case_decide as H2; [|by rewrite lookup_empty].
      subst c. intros [= <-]. cbn. rewrite lookup_insert_ne, lookup_empty by done. cbn. split.
      * split; [done | by eexists].
      * split; [by intros ?%elem_of_nil | done].
  - intros sec c. unfold Demo.dispatcher, queue_of. cbn [store queues].
    rewrite lookup_insert. case_decide as H1.
    + subst sec. cbn. intros ->%list_elem_of_singleton.
      exists Demo.waiting. by rewrite lookup_insert_eq.
    + rewrite lookup_empty. cbn. by intros ?%elem_of_nil.
Qed.

(** And so does any run of claim attempts. *)
Lemma claims_consistent st c agents :
  consistent st → consistent (snd (claims c agents st)).
Proof.
  revert st. induction agents as [|a agents IH]; intros st Hst; [done|].
  cbn [claims]. specialize (IH (apply (claim c a st) st)).
  destruct (claims c agents (apply (claim c a st) st)) as [rs st'] eqn:E.
  cbn. apply IH. destruct (claim c a st) as [st1|e] eqn:Hcl; [|done].
  by apply (claim_consistent st c a).
Qed.



(** C5. On a conversation that is in_progress, a resolve request by an
    agent other than the assigned one fails with PermissionDenied and
    leaves the state as it was, the conversation still in_progress with its
    assignment; the assigned agent's request succeeds and the conversation
    is resolved. So the conversation becomes resolved exactly when the
    request comes from the assigned agent. *)
Theorem C5_only_assignee_resolves
    (st : state) (c : conv_id) (cv : conversation) (b : agent) (now : Z)
    (Hc : store st !! c = Some cv)
    (Hs : conv_status cv = in_progress) :
  let r := resolve c b now st in
  (if decide (assigned_agent cv = Some b)
   then ∃ st', r = Ok st'
               ∧ status_of c st' = Some resolved
               ∧ assignee_of c st' = None
               ∧ queues st' = queues st
   else r = Err PermissionDenied
        ∧ apply r st = st
        ∧ status_of c (apply r st) = Some in_progress
        ∧ assignee_of c (apply r st) = assigned_agent cv)
  ∧ (status_of c (apply r st) = Some resolved ↔ assigned_agent cv = Some b).
Proof.
  intros r. subst r. unfold resolve. rewrite Hc.
  rewrite (decide_True _ _ Hs).
  assert (Hst : status_of c st = Some in_progress).
  { unfold status_of. by rewrite Hc, <- Hs. }
  destruct (decide (assigned_agent cv = Some b)) as [Ha|Hne].
  - cbn. split.
    + eexists. split; [done|]. unfold status_of, assignee_of. cbn.
      by rewrite lookup_insert_eq.
    + unfold status_of. cbn. by rewrite lookup_insert_eq.
  - cbn. split.
    + repeat split; [done|]. unfold assignee_of. by rewrite Hc.
    + rewrite Hst. split; [done | intros ?; done].
Qed.

End DispatcherFacts.


Lemma C5_witness :
  Dispatcher.resolve 2%nat 11%nat 9 Demo.dispatcher
  = Dispatcher.Err Dispatcher.PermissionDenied.
Proof.
  destruct (C5_only_assignee_resolves Demo.dispatcher 2%nat Demo.assigned
              11%nat 9) as [H _].
  - vm_compute. reflexivity.
  - reflexivity.
  - exact (proj1 H).
Defined.

(* ===================================================================== *)
(** * Further properties of the client *)
(* ===================================================================== *)

(** ** The hook beyond the heartbeat *)

Section HookMore.

Context (p : Hook.props) (valid_url : string -> bool).

Local Abbreviation step := (Hook.step p valid_url).
Local Abbreviation run := (Hook.run p valid_url).

(** X1. [sendMessage] never changes the hook. It puts one frame, the JSON
    text of its argument, on the socket held in [wsRef] when that socket
    is open; in every other case the message is dropped for good: whatever
    events follow, the run is the one without the call. *)
Theorem sendMessage_sends_or_drops
    (s : Hook.state) (data : value) (evs : list Hook.event) :
  let frames :=
    match Outage.current_open s with
    | Some ws => [Hook.Send ws (default "undefined" (stringify data))]
    | None => []
    end in
  step s (Hook.CallSend data) = (s, frames)
  ∧ run s (Hook.CallSend data :: evs)
    = (fst (run s evs), frames ++ snd (run s evs)).
Proof.
  intros frames.
  assert (Hstep : step s (Hook.CallSend data) = (s, frames)).
  { subst frames. cbn. unfold Hook.sendMessage, Outage.current_open.
    destruct (Hook.wsRef s) as [ws|]; cbn; [|done].
    destruct (Hook.sockets s !! ws) as [w|]; cbn; [|done]. by case_decide. }
  split; [exact Hstep|].
  cbn [Hook.run]. rewrite Hstep. by destruct (run s evs).
Qed.

(** The state the teardown leaves. *)
Lemma cleanup_state s :
  fst (Hook.cleanup s)
  = let s1 := match Hook.reconnectTimeoutRef s with
              | Some id => Hook.disarm id s
              | None => s
              end in
    match Hook.wsRef s with
    | Some ws =>
        Hook.ws_close ws
          match Hook.sockets s !! ws ≫= Hook._pingInterval with
          | Some id => Hook.disarm id s1
          | None => s1
          end
    | None => s1
    end.
Proof.
  unfold Hook.cleanup.
  destruct (Hook.reconnectTimeoutRef s) as [r|]; cbn;
    destruct (Hook.wsRef s) as [ws|]; cbn; try done;
    by destruct (Hook.sockets s !! ws ≫= Hook._pingInterval).
Qed.

Lemma ws_close_fields ws s :
  Hook.timers (Hook.ws_close ws s) = Hook.timers s
  ∧ Hook.next_timer (Hook.ws_close ws s) = Hook.next_timer s
  ∧ Hook.next_socket (Hook.ws_close ws s) = Hook.next_socket s
  ∧ Hook.wsRef (Hook.ws_close ws s) = Hook.wsRef s
  ∧ Hook.reconnectTimeoutRef (Hook.ws_close ws s) = Hook.reconnectTimeoutRef s
  ∧ (Hook.sockets (Hook.ws_close ws s) !! ws ≫= Hook._pingInterval)
    = (Hook.sockets s !! ws ≫= Hook._pingInterval).
Proof.
  unfold Hook.ws_close. destruct (Hook.sockets s !! ws) as [w|] eqn:Hw.
  - destruct (Hook.readyState w); cbn; rewrite ?lookup_alter_eq, ?Hw; done.
  - by rewrite Hw.
Qed.

Lemma ws_close_twice ws s :
  Hook.ws_close ws (Hook.ws_close ws s) = Hook.ws_close ws s.
Proof.
  destruct (Hook.sockets s !! ws) as [w|] eqn:Hw.
  - assert (Hstay : ∀ s0 w0, Hook.sockets s0 !! ws = Some w0 →
              Hook.readyState w0 = Hook.CLOSING ∨ Hook.readyState w0 = Hook.CLOSED →
              Hook.ws_close ws s0 = s0).
    { intros s0 w0 H0 [Hr|Hr]; unfold Hook.ws_close; by rewrite H0, Hr. }
    destruct (Hook.readyState w) eqn:Hr.
    + assert (E : Hook.ws_close ws s = Hook.set_readyState ws Hook.CLOSING s)
        by (unfold Hook.ws_close; by rewrite Hw, Hr).
      rewrite E. eapply Hstay; [cbn; by rewrite lookup_alter_eq, Hw | by left].
    + assert (E : Hook.ws_close ws s = Hook.set_readyState ws Hook.CLOSING s)
        by (unfold Hook.ws_close; by rewrite Hw, Hr).
      rewrite E. eapply Hstay; [cbn; by rewrite lookup_alter_eq, Hw | by left].
    + rewrite !(Hstay s w Hw); auto.
    + rewrite !(Hstay s w Hw); auto.
  - assert (E : Hook.ws_close ws s = s) by (unfold Hook.ws_close; by rewrite Hw).
    by rewrite !E.
Qed.

Lemma ws_close_disarm ws id s :
  Hook.ws_close ws (Hook.disarm id s) = Hook.disarm id (Hook.ws_close ws s).
Proof.
  unfold Hook.ws_close. cbn. destruct (Hook.sockets s !! ws) as [w|]; [|done].
  by destruct (Hook.readyState w).
Qed.

Lemma disarm_twice id s : Hook.disarm id (Hook.disarm id s) = Hook.disarm id s.
Proof. unfold Hook.disarm. cbn. by rewrite delete_delete_eq. Qed.

(** X2. The teardown can run twice: the second run finds the reconnection
    cancelled, the heartbeat cleared and the socket closing, and leaves the
    hook exactly as the first run left it. *)
Theorem cleanup_twice (s : Hook.state) :
  fst (step (fst (step s Hook.Unmount)) Hook.Unmount) = fst (step s Hook.Unmount).
Proof.
  cbn [Hook.step]. rewrite (cleanup_state (fst (Hook.cleanup s))).
  rewrite (cleanup_state s). cbv zeta.
  destruct (Hook.wsRef s) as [ws|] eqn:Hws.
  - assert (Hping : ∀ t, Hook.sockets t = Hook.sockets s →
              Hook.sockets (Hook.ws_close ws t) !! ws ≫= Hook._pingInterval
              = Hook.sockets s !! ws ≫= Hook._pingInterval).
    { intros t Ht. destruct (ws_close_fields ws t) as (_ & _ & _ & _ & _ & H).
      by rewrite H, Ht. }
    assert (Hfields : ∀ t, Hook.reconnectTimeoutRef (Hook.ws_close ws t)
                           = Hook.reconnectTimeoutRef t
                           ∧ Hook.wsRef (Hook.ws_close ws t) = Hook.wsRef t).
    { intros t. destruct (ws_close_fields ws t) as (_ & _ & _ & H1 & H2 & _). done. }
    destruct (Hook.reconnectTimeoutRef s) as [r|] eqn:Hr;
      destruct (Hook.sockets s !! ws ≫= Hook._pingInterval) as [pid|] eqn:Hp;
      rewrite !(proj1 (Hfields _)), !(proj2 (Hfields _));
      cbn [Hook.disarm Hook.reconnectTimeoutRef Hook.wsRef]; rewrite ?Hr, ?Hws;
      rewrite Hping by done; rewrite ?Hp;
      rewrite <- ?ws_close_disarm, ?ws_close_twice; f_equal.
    + unfold Hook.disarm. cbn. f_equal.
      apply map_eq. intros k. rewrite !lookup_delete. by repeat case_decide.
    + by rewrite disarm_twice.
    + by rewrite disarm_twice.
  - destruct (Hook.reconnectTimeoutRef s) as [r|] eqn:Hr; cbn; rewrite ?Hws, ?Hr; cbn;
      rewrite ?Hws; [by rewrite disarm_twice | done].
Qed.

(** An abnormal close and the timer it arms: one reconnection is
    scheduled, and when it fires one socket is constructed. *)
Lemma close_then_fire s ws code reason :
  code ≠ 1000 →
  truthy (Hook.agentId p) = true → truthy (Hook.sector p) = true →
  let r := run s [Hook.SocketClose ws code reason; Hook.TimerFire (Hook.next_timer s)] in
  snd r
  = match Hook.sockets s !! ws ≫= Hook._pingInterval with
    | Some id => [Hook.ClearInterval id]
    | None => []
    end
    ++ [Hook.SetTimeout (Hook.next_timer s) 3000 Hook.Reconnect;
        Hook.NewWebSocket (Hook.wsUrl p)]
  ∧ Hook.next_timer (fst r) = Pos.succ (Hook.next_timer s)
  ∧ Hook.next_socket (fst r)
    = (if valid_url (Hook.wsUrl p) then S (Hook.next_socket s) else Hook.next_socket s)
  ∧ Hook.wsRef (fst r)
    = (if valid_url (Hook.wsUrl p) then Some (Hook.next_socket s) else Hook.wsRef s).
Proof.
  intros Hcode Ha Hs r. subst r. cbn [Hook.run].
  pose proof (onclose_effects ws code (Hook.set_readyState ws Hook.CLOSED s)) as He.
  pose proof (onclose_state ws code (Hook.set_readyState ws Hook.CLOSED s)) as Hst.
  cbn [Hook.step].
  destruct (Hook.onclose ws code (Hook.set_readyState ws Hook.CLOSED s)) as [s1 e1].
  cbn [fst snd] in He, Hst. cbv zeta in Hst.
  rewrite decide_False in He by done. rewrite decide_False in Hst by done.
  assert (Hping : Hook.sockets (Hook.set_readyState ws Hook.CLOSED s) !! ws
                    ≫= Hook._pingInterval
                  = Hook.sockets s !! ws ≫= Hook._pingInterval).
  { cbn. rewrite lookup_alter_eq. by destruct (Hook.sockets s !! ws). }
  rewrite Hping in He, Hst.
  assert (Ht : Hook.timers s1 !! Hook.next_timer s
               = Some (Hook.Timer Hook.Timeout 3000 Hook.Reconnect)).
  { rewrite Hst. cbn. destruct (_ ≫= Hook._pingInterval); cbn;
      by rewrite lookup_insert_eq. }
  rewrite Ht. cbn [Hook.kind Hook.action Hook.run_callback].
  unfold Hook.connect. rewrite Ha, Hs. cbn [negb orb].
  assert (Hnt : Hook.next_timer s1 = Pos.succ (Hook.next_timer s)
                ∧ Hook.next_socket s1 = Hook.next_socket s
                ∧ Hook.wsRef s1 = Hook.wsRef s).
  { rewrite Hst. by destruct (_ ≫= Hook._pingInterval). }
  destruct Hnt as (Hn1 & Hn2 & Hn3).
  destruct (valid_url (Hook.wsUrl p)); cbn; rewrite He, ?Hn1, ?Hn2, ?Hn3;
    rewrite <- (assoc_L (++)); done.
Qed.

(** X3. The hook keeps no record of having been torn down. If the close
    event that follows the teardown carries a code other than 1000, the
    close handler schedules the reconnection all the same, and when that
    timer fires a socket is opened at the URL of the hook. *)
Theorem late_abnormal_close_reconnects
    (s : Hook.state) (ws : Hook.ws_id) (code : Z) (reason : string)
    (Hcode : code ≠ 1000)
    (Ha : truthy (Hook.agentId p) = true)
    (Hs : truthy (Hook.sector p) = true) :
  let es := snd (run s [Hook.Unmount;
                        Hook.SocketClose ws code reason;
                        Hook.TimerFire (Hook.next_timer s)]) in
  Hook.reconnect_delays es = [3000]
  ∧ Hook.opened es = [Hook.wsUrl p].
Proof.
  intros es. subst es.
  change [Hook.Unmount; Hook.SocketClose ws code reason; Hook.TimerFire (Hook.next_timer s)]
    with ([Hook.Unmount]
            ++ [Hook.SocketClose ws code reason; Hook.TimerFire (Hook.next_timer s)]).
  rewrite run_app. cbn [Hook.run Hook.step].
  pose proof (cleanup_state s) as Hc.
  pose proof (reconnect_delays_cleanup s) as Hd.
  assert (Ho : Hook.opened (snd (Hook.cleanup s)) = []).
  { unfold Hook.cleanup.
    destruct (Hook.reconnectTimeoutRef s); cbn; destruct (Hook.wsRef s) as [w|]; cbn;
      try done; by destruct (Hook.sockets s !! w ≫= Hook._pingInterval). }
  destruct (Hook.cleanup s) as [s1 e1]. cbn [fst snd] in *.
  assert (Hn : Hook.next_timer s1 = Hook.next_timer s).
  { rewrite Hc. cbv zeta.
    destruct (Hook.reconnectTimeoutRef s), (Hook.wsRef s) as [w|]; cbn; try done;
      rewrite (proj1 (proj2 (ws_close_fields w _)));
      by destruct (Hook.sockets s !! w ≫= Hook._pingInterval). }
  rewrite <- Hn.
  destruct (close_then_fire s1 ws code reason Hcode Ha Hs) as (He & _).
  cbn [Hook.run Hook.step] in He.
  destruct (let '(s2, e2) := Hook.onclose ws code (Hook.set_readyState ws Hook.CLOSED s1) in _)
    as [s3 e3] eqn:E.
  cbn [fst snd] in *. rewrite app_nil_r.
  unfold Hook.reconnect_delays, Hook.opened in *.
  rewrite !omap_app, Hd, Ho, He, !omap_app. cbn.
  by destruct (Hook.sockets s1 !! ws ≫= Hook._pingInterval).
Qed.

(** X4. The reconnection never gives up and never backs off. While every
    close carries a code other than 1000, each round of close and timer
    schedules one reconnection, always 3000 ms ahead, and opens one socket
    at the same URL; when the constructor accepts the URL, the hook then
    holds the newest socket. *)
Theorem outage_retries_every_3000
    (codes : list Z) (s : Hook.state)
    (Hcodes : Forall (fun code => code ≠ 1000) codes)
    (Ha : truthy (Hook.agentId p) = true)
    (Hs : truthy (Hook.sector p) = true) :
  let r := Outage.rounds p valid_url codes s in
  Hook.reconnect_delays (snd r) = replicate (length codes) 3000
  ∧ Hook.opened (snd r) = replicate (length codes) (Hook.wsUrl p)
  ∧ Hook.next_socket (fst r)
    = (if valid_url (Hook.wsUrl p) then (Hook.next_socket s + length codes)%nat
       else Hook.next_socket s)
  ∧ (if valid_url (Hook.wsUrl p)
     then match codes with
          | [] => Hook.wsRef (fst r) = Hook.wsRef s
          | _ :: _ => Hook.wsRef (fst r) = Some (Hook.next_socket s + length codes - 1)%nat
          end
     else Hook.wsRef (fst r) = Hook.wsRef s).
Proof.
  revert s. induction Hcodes as [|code codes Hcode _ IH]; intros s r; subst r.
  - cbn. rewrite Nat.add_0_r. repeat split; by destruct (valid_url _).
  - cbn [Outage.rounds length replicate].
    destruct (close_then_fire s (default 0%nat (Hook.wsRef s)) code "" Hcode Ha Hs)
      as (He & _ & Hns & Hws).
    unfold Outage.round.
    destruct (run s _) as [s1 e1]. cbn [fst snd] in *.
    specialize (IH s1). cbv zeta in IH. destruct IH as (IH1 & IH2 & IH3 & IH4).
    destruct (Outage.rounds p valid_url codes s1) as [s2 e2]. cbn [fst snd] in *.
    unfold Hook.reconnect_delays, Hook.opened in *.
    rewrite !omap_app, IH1, IH2, He, !omap_app. cbn.
    split; [by destruct (_ ≫= Hook._pingInterval)|].
    split; [by destruct (_ ≫= Hook._pingInterval)|].
    rewrite IH3, Hns. destruct (valid_url (Hook.wsUrl p)).
    + split; [lia|]. destruct codes as [|c codes].
      * rewrite IH4, Hws. f_equal. cbn. lia.
      * rewrite IH4. f_equal. cbn. lia.
    + split; [done|]. by rewrite IH4, Hws.
Qed.

End HookMore.

Lemma late_abnormal_close_reconnects_witness :
  Hook.opened
    (snd (Hook.run Demo.props Demo.any_url Demo.open
            [Hook.Unmount; Hook.SocketClose 0%nat 1006 ""; Hook.TimerFire 2%positive]))
  = ["wss://crm.example:8002/ws/7/comercial"].
Proof.
  destruct (late_abnormal_close_reconnects Demo.props Demo.any_url Demo.open
              0%nat 1006 "" ltac:(lia) eq_refl eq_refl) as [_ H].
  exact H.
Defined.

Lemma outage_retries_every_3000_witness :
  Hook.reconnect_delays
    (snd (Outage.rounds Demo.props Demo.any_url [1006; 1011; 1006] Demo.open))
  = [3000; 3000; 3000].
Proof.
  destruct (outage_retries_every_3000 Demo.props Demo.any_url [1006; 1011; 1006]
              Demo.open ltac:(repeat constructor; lia) eq_refl eq_refl) as [H _].
  exact H.
Defined.

(** ** The api instance beyond logout *)

Section ApiMore.

Context (PROD : bool) (net : Api.network).


End ApiMore.

(** ** The page beyond the three events *)

Lemma strict_eq_str (v : value) (s : string) :
  strict_eq v (VStr s) = true ↔ v = VStr s.
Proof.
  destruct v; cbn; try (split; [done | discriminate]).
  destruct (String.eqb_spec s0 s); split; congruence.
Qed.

Lemma strict_eq_str_false (v : value) (s : string) :
  v ≠ VStr s → strict_eq v (VStr s) = false.
Proof.
  intros H. destruct (strict_eq v (VStr s)) eqn:E; [|done].
  by apply strict_eq_str in E.
Qed.

Section PageMore.

Context (agent : value) (protocol hostname : string).
Context (valid_url : string -> bool) (type_error : value).

Local Abbreviation step :=
  (Dashboard.step agent protocol hostname valid_url type_error).
Local Abbreviation run :=
  (Dashboard.run agent protocol hostname valid_url type_error).

(** The handler touches neither the tab nor the polling nor the hook. *)
Lemma handler_keeps_tab data s s' es :
  Dashboard.handleWebSocketMessage data s = Some (s', es) →
  Dashboard.activeTab s' = Dashboard.activeTab s
  ∧ Dashboard.polling s' = Dashboard.polling s.
Proof.
  unfold Dashboard.handleWebSocketMessage.
  destruct (prop data "type") as [ty|]; [|by intros [= <- <-]].
  destruct (strict_eq ty (VStr "new_message")).
  - destruct (truthy _ && _).
    + destruct (Dashboard.add_message data (Dashboard.messages s)) as [msgs|]; [|done].
      cbn. by intros [= <- <-].
    + by intros [= <- <-].
  - destruct (strict_eq ty (VStr "new_conversation")); [by intros [= <- <-]|].
    destruct (strict_eq ty (VStr "queue_update")); by intros [= <- <-].
Qed.

Lemma deliver_keeps_tab es s s' es' :
  Dashboard.deliver es s = Some (s', es') →
  Dashboard.activeTab s' = Dashboard.activeTab s
  ∧ Dashboard.polling s' = Dashboard.polling s.
Proof.
  revert s s' es'. induction es as [|e es IH]; intros s s' es'.
  - by intros [= <- <-].
  - assert (Hrest : ∀ t, (Dashboard.deliver es t ≫= λ '(s2, e2), Some (s2, Dashboard.Ws e :: e2))
                         = Some (s', es') →
              Dashboard.activeTab s' = Dashboard.activeTab t
              ∧ Dashboard.polling s' = Dashboard.polling t).
    { intros t Ht. destruct (Dashboard.deliver es t) as [[s2 e2]|] eqn:Hd; [|done].
      cbn in Ht. injection Ht as <- <-. by eapply IH. }
    destruct e; try apply Hrest.
    cbn [Dashboard.deliver].
    destruct (Dashboard.handleWebSocketMessage data s) as [[s1 e1]|] eqn:Hh; [|done].
    cbn. destruct (Dashboard.deliver es s1) as [[s2 e2]|] eqn:Hd; [|done].
    cbn. intros [= <- <-].
    destruct (handler_keeps_tab _ _ _ _ Hh) as [Ha Hp].
    destruct (IH _ _ _ Hd) as [Ha' Hp']. split; congruence.
Qed.

Lemma step_keeps_polling s ev s' es :
  ev ≠ Dashboard.Torn →
  step s ev = Some (s', es) →
  Dashboard.polling s = Some (Dashboard.activeTab s) →
  Dashboard.polling s' = Some (Dashboard.activeTab s').
Proof.
  intros Hev Hstep Hinv. destruct ev; try done; cbn in Hstep.
  - (* Mounted *)
    destruct (Dashboard.hook_step _ _ _ _ _ s) as [[s1 e1]|]; [|done].
    cbn in Hstep. by injection Hstep as <- <-.
  - (* FromHook *)
    unfold Dashboard.hook_step in Hstep.
    destruct (Hook.step _ _ _ e) as [h es0].
    destruct (deliver_keeps_tab _ _ _ _ Hstep) as [-> ->]. exact Hinv.
  - (* PollTick *)
    rewrite Hinv in Hstep. by injection Hstep as <- <-.
  - (* TabClicked *)
    case_decide; by injection Hstep as <- <-.
  - (* Settled *)
    injection Hstep as <- <-. unfold Dashboard.loadConversations_settle.
    destruct o as [data|err]; [|done].
    destruct t; cbn; repeat case_match; done.
  - by injection Hstep as <- <-.
  - by injection Hstep as <- <-.
  - injection Hstep as <- <-. unfold Dashboard.loadMessages_settle.
    destruct o; [|done]. by destruct (prop v "messages").
Qed.

Lemma run_keeps_polling evs s s' es :
  Dashboard.Torn ∉ evs →
  run s evs = Some (s', es) →
  Dashboard.polling s = Some (Dashboard.activeTab s) →
  Dashboard.polling s' = Some (Dashboard.activeTab s').
Proof.
  revert s es. induction evs as [|ev evs IH]; intros s es Hno Hrun Hinv.
  - by injection Hrun as <- <-.
  - cbn [Dashboard.run] in Hrun.
    destruct (step s ev) as [[s1 e1]|] eqn:Hs; [|done]. cbn in Hrun.
    destruct (run s1 evs) as [[s2 e2]|] eqn:Hr; [|done]. cbn in Hrun.
    injection Hrun as <- <-.
    apply not_elem_of_cons in Hno as [Hne Hno].
    eapply IH; [done | done |]. eapply step_keeps_polling; eauto.
Qed.

(** X6. From the mount to the teardown the poll follows the active tab:
    after any events (clicks on tabs, live events, answers, ticks) the
    armed 10000 ms interval is the one of the tab now active, so the next
    tick requests that tab's listing. *)
Theorem polling_follows_active_tab
    (s s' : Dashboard.state) (evs : list Dashboard.event) (es : list Dashboard.effect)
    (Hno : Dashboard.Torn ∉ evs)
    (Hrun : run s (Dashboard.Mounted :: evs) = Some (s', es)) :
  Dashboard.polling s' = Some (Dashboard.activeTab s')
  ∧ step s' Dashboard.PollTick
    = Some (Dashboard.setError VNull s',
            [Dashboard.Request (Dashboard.loadConversations_call (Dashboard.activeTab s'))]).
Proof.
  assert (Hp : Dashboard.polling s' = Some (Dashboard.activeTab s')).
  { cbn [Dashboard.run] in Hrun.
    destruct (step s Dashboard.Mounted) as [[s1 e1]|] eqn:Hs; [|done]. cbn in Hrun.
    destruct (run s1 evs) as [[s2 e2]|] eqn:Hr; [|done]. cbn in Hrun.
    injection Hrun as <- <-.
    eapply run_keeps_polling; [done | done |].
    cbn in Hs. destruct (Dashboard.hook_step _ _ _ _ _ s) as [[s0 e0]|]; [|done].
    cbn in Hs. by injection Hs as <- <-. }
  split; [done|]. cbn. by rewrite Hp.
Qed.

(** X7. Events the page does not know are ignored. A frame whose type is
    none of new_message, new_conversation, queue_update (a missing type
    and a JSON null included) changes nothing on the page beyond the hook's
    [lastMessage] and starts no request; a frame that does not parse
    changes nothing at all. *)
Theorem unknown_events_ignored
    (s : Dashboard.state) (ws : Hook.ws_id) (data : value)
    (Hm : opt_prop data "type" ≠ VStr "new_message")
    (Hc : opt_prop data "type" ≠ VStr "new_conversation")
    (Hq : opt_prop data "type" ≠ VStr "queue_update") :
  Dashboard.handleWebSocketMessage data s = Some (s, [])
  ∧ step s (Dashboard.FromHook (Hook.SocketMessage ws (Some data)))
    = Some (Dashboard.set_hook (Hook.set_lastMessage data (Dashboard.hook s)) s,
            [Dashboard.Ws (Hook.OnMessage data)])
  ∧ step s (Dashboard.FromHook (Hook.SocketMessage ws None)) = Some (s, []).
Proof.
  assert (Hh : ∀ st, Dashboard.handleWebSocketMessage data st = Some (st, [])).
  { intros st. unfold Dashboard.handleWebSocketMessage.
    unfold opt_prop in Hm, Hc, Hq.
    destruct (prop data "type") as [ty|]; [|done]. cbn in Hm, Hc, Hq.
    by rewrite !strict_eq_str_false. }
  split; [apply Hh|]. split.
  - by rewrite message_step, Hh.
  - cbn. by rewrite set_hook_hook.
Qed.


(** What the history loader shows once the service has answered. *)
Lemma history_settled PROD net id ls s :
  Dashboard.messages
    (Dashboard.loadMessages_settle (fst (Api.getByConversation PROD net id [] ls)) s)
  = match fst (Api.get PROD net ("/api/messages/conversation/" +:+ to_string id) [] ls) with
    | Api.Rejected _ => VArr []
    | Api.Resolved data =>
        match prop data "messages" with
        | Some ms => or_else ms (VArr [])
        | None => Dashboard.messages s
        end
    end.
Proof.
  unfold Api.getByConversation, Api.recover.
  destruct (Api.get PROD net _ [] ls) as [[data|err] ls1]; cbn; [|done].
  by destruct (prop data "messages").
Qed.

(** X9. A failed fetch of the history empties the chat. The service
    turns every failure into the answer [{messages: []}], so the loader
    never sees a rejection: it replaces the displayed messages by the
    empty list, and the page shows no error. *)
Theorem failed_history_fetch_empties_chat
    (PROD : bool) (net : Api.network) (ls : Api.storage) (id : value)
    (s : Dashboard.state)
    (Hfail : Api.rejects
               (fst (Api.get PROD net ("/api/messages/conversation/" +:+ to_string id)
                       [] ls)) = true) :
  let o := fst (Api.getByConversation PROD net id [] ls) in
  Api.rejects o = false
  ∧ step s (Dashboard.MessagesSettled o)
    = Some (Dashboard.setMessages (VArr []) s, [])
  ∧ Dashboard.error (Dashboard.loadMessages_settle o s) = Dashboard.error s.
Proof.
  intros o. subst o. unfold Api.getByConversation, Api.recover.
  destruct (Api.get PROD net _ [] ls) as [[data|err] ls1]; [done|]. done.
Qed.


End PageMore.

Lemma polling_follows_active_tab_witness :
  Dashboard.step Demo.agent "https:" "crm.example" Demo.any_url Demo.type_error
    Demo2.queue_page Dashboard.PollTick
  = Some (Dashboard.setError VNull Demo2.queue_page,
          [Dashboard.Request (Dashboard.GetQueue VUndefined)]).
Proof.
  refine (proj2 (polling_follows_active_tab
                   Demo.agent "https:" "crm.example" Demo.any_url Demo.type_error
                   Dashboard.init Demo2.queue_page
                   [Dashboard.TabClicked Dashboard.TabQueue]
                   (snd (default (Dashboard.init, []) Demo2.to_queue)) _ _)).
  - by intros [[=]|[]%elem_of_nil]%elem_of_cons.
  - vm_compute. reflexivity.
Defined.

Lemma unknown_events_ignored_witness :
  Dashboard.handleWebSocketMessage (VObj [("type", VStr "typing")]) Demo.page
  = Some (Demo.page, []).
Proof.
  refine (proj1 (unknown_events_ignored
                   Demo.agent "https:" "crm.example" Demo.any_url Demo.type_error
                   Demo.page 0%nat (VObj [("type", VStr "typing")]) _ _ _)); by cbn.
Defined.


Lemma failed_history_fetch_empties_chat_witness :
  Dashboard.step Demo.agent "https:" "crm.example" Demo.any_url Demo.type_error
    (Dashboard.setMessages (VArr [VObj [("id", VNum 1)]]) Demo.page)
    (Dashboard.MessagesSettled
       (fst (Api.getByConversation true Demo2.down (VNum 5) [] ∅)))
  = Some (Dashboard.setMessages (VArr [])
            (Dashboard.setMessages (VArr [VObj [("id", VNum 1)]]) Demo.page), []).
Proof.
  refine (proj1 (proj2 (failed_history_fetch_empties_chat
                          Demo.agent "https:" "crm.example" Demo.any_url Demo.type_error
                          true Demo2.down ∅ (VNum 5)
                          (Dashboard.setMessages (VArr [VObj [("id", VNum 1)]]) Demo.page)
                          _))).
  reflexivity.
Defined.

(** ** The handlers of the chat panel *)

Lemma assoc_set_key_eq k v fs : assoc k (Spread.set_key k v fs) = Some v.
Proof.
  induction fs as [|[k' v'] fs IH]; cbn.
  - by rewrite String.eqb_refl.
  - destruct (String.eqb k k') eqn:E; cbn; rewrite ?String.eqb_refl, ?E; done.
Qed.

Lemma assoc_set_key_ne k k' v fs :
  k' ≠ k → assoc k' (Spread.set_key k v fs) = assoc k' fs.
Proof.
  intros Hne. assert (Hk : String.eqb k' k = false) by by apply String.eqb_neq.
  induction fs as [|[k0 v0] fs IH]; cbn.
  - by rewrite Hk.
  - destruct (String.eqb_spec k k0) as [<-|Hk0]; cbn.
    + by rewrite Hk.
    + by rewrite IH.
Qed.

Section HandlersMore.

Context (blank : string -> bool).
Context (PROD : bool) (net : Api.network).

Local Abbreviation handleSendMessage := (Handlers.handleSendMessage blank).

(** X11. One message is in flight at a time, and a failed send puts the
    page back. A submit with a draft that is not blank, a conversation
    open and no send in flight calls the send service with the id of that
    conversation and the draft as typed; a second submit before the call
    settles does nothing; if the request is rejected the user gets one
    alert and the page is exactly as before the submit, draft included. *)
Theorem failed_send_restores_page
    (s : Handlers.state) (ls : Api.storage)
    (Hdraft : blank (Handlers.newMessage s) = false)
    (Hsel : truthy (Handlers.selectedConversation s) = true)
    (Hidle : Handlers.sending s = false) :
  let selected := Handlers.selectedConversation s in
  let id := opt_prop selected "id" in
  let s1 := fst (handleSendMessage s) in
  let o := fst (Services.send PROD net id (VStr (Handlers.newMessage s)) ls) in
  snd (handleSendMessage s)
    = [Handlers.Call (Handlers.SendMessage id (Handlers.newMessage s))]
  ∧ handleSendMessage s1 = (s1, [])
  ∧ (Api.rejects o = true →
     Handlers.send_settled selected o s1
     = (s, [Handlers.Alert (VStr "Erro ao enviar mensagem")])).
Proof.
  intros selected id s1 o. subst s1. unfold Handlers.handleSendMessage.
  rewrite Hdraft, Hsel, Hidle. cbn. split; [done|]. split.
  - by rewrite orb_true_r.
  - destruct o; [done|]. intros _. cbn. destruct s; cbn in *. by subst.
Qed.

(** X12. A sent message clears the draft and reloads the history; the
    message box is released only when the reload has settled. After the
    send service resolved, the draft is empty, the history of the
    conversation the handler was started on is requested, and submits are
    still refused; once that request settled, in whatever way, the page
    shows what the history loader made of the answer and no send is in
    flight any more. *)
Theorem sent_message_reloads_history
    (s : Handlers.state) (ls : Api.storage) (reload : Api.outcome)
    (Hdraft : blank (Handlers.newMessage s) = false)
    (Hsel : truthy (Handlers.selectedConversation s) = true)
    (Hidle : Handlers.sending s = false)
    (Hok : Api.rejects
             (fst (Services.send PROD net
                     (opt_prop (Handlers.selectedConversation s) "id")
                     (VStr (Handlers.newMessage s)) ls)) = false) :
  let selected := Handlers.selectedConversation s in
  let id := opt_prop selected "id" in
  let s1 := fst (handleSendMessage s) in
  let o := fst (Services.send PROD net id (VStr (Handlers.newMessage s)) ls) in
  let s2 := fst (Handlers.send_settled selected o s1) in
  let s3 := Handlers.send_reloaded reload s2 in
  snd (Handlers.send_settled selected o s1)
    = [Handlers.Page (Dashboard.Request (Dashboard.GetMessages id))]
  ∧ Handlers.newMessage s2 = EmptyString
  ∧ handleSendMessage s2 = (s2, [])
  ∧ s3 = Handlers.State (Dashboard.loadMessages_settle reload (Handlers.page s))
           EmptyString false.
Proof.
  intros selected id s1 o s2 s3. subst s3 s2 s1. fold selected id o in Hok.
  unfold Handlers.handleSendMessage. rewrite Hdraft, Hsel, Hidle. cbn.
  destruct o; [|done]. cbn. split; [done|]. split; [done|]. split; [|done].
  by rewrite orb_true_r.
Qed.

(** X13. Accepting a conversation. The handler calls the accept service
    with the conversation's id and changes nothing until it settles. When
    it resolves, the open conversation becomes the accepted one with its
    status set to in_progress and every other field as it was, so the
    panel offers the resolve button and the message box and no accept
    button; the list of the active tab and the messages of the
    conversation are requested. When it is rejected, nothing changes and
    the user gets one alert, with the server's detail if it has one and
    the fixed text otherwise; the alert is never empty. *)
Theorem accept_outcomes
    (fields : list (string * value)) (t : Dashboard.tab) (s : Handlers.state)
    (d err : value) :
  let conversation := VObj fields in
  let accepted := Spread.with_key conversation "status" (VStr "in_progress") in
  let s1 := fst (Handlers.accept_settled conversation t (Api.Resolved d) s) in
  Handlers.handleAcceptConversation conversation s
    = (s, [Handlers.Call (Handlers.Accept (opt_prop conversation "id"))])
  ∧ Handlers.selectedConversation s1 = accepted
  ∧ opt_prop accepted "status" = VStr "in_progress"
  ∧ (∀ k, k ≠ "status" → opt_prop accepted k = opt_prop conversation k)
  ∧ Handlers.offers_accept accepted = false
  ∧ Handlers.offers_resolve accepted = true
  ∧ Handlers.offers_input accepted = true
  ∧ snd (Handlers.accept_settled conversation t (Api.Resolved d) s)
    = Handlers.pages
        [Dashboard.Request (Dashboard.loadConversations_call t);
         Dashboard.Request (Dashboard.GetMessages (opt_prop conversation "id"))]
  ∧ Dashboard.messages (Handlers.page s1) = Dashboard.messages (Handlers.page s)
  ∧ Dashboard.conversations (Handlers.page s1)
    = Dashboard.conversations (Handlers.page s)
  ∧ (∃ msg, Handlers.accept_settled conversation t (Api.Rejected err) s
            = (s, [Handlers.Alert msg])
            ∧ truthy msg = true
            ∧ msg = if truthy (Handlers.detail err) then Handlers.detail err
                    else VStr "Erro ao aceitar conversa").
Proof.
  intros conversation accepted s1.
  assert (Hst : opt_prop accepted "status" = VStr "in_progress").
  { unfold accepted, Spread.with_key, opt_prop. cbn.
    by rewrite assoc_set_key_eq. }
  assert (Hother : ∀ k, k ≠ "status" → opt_prop accepted k = opt_prop conversation k).
  { intros k Hk. unfold accepted, Spread.with_key, opt_prop. cbn.
    by rewrite assoc_set_key_ne. }
  repeat split; try done.
  - unfold Handlers.offers_accept, Handlers.status_is. by rewrite Hst.
  - unfold Handlers.offers_resolve, Handlers.status_is. by rewrite Hst.
  - unfold Handlers.offers_input, Handlers.status_is. by rewrite Hst.
  - cbn. unfold Dashboard.loadMessages_start. cbn. do 5 f_equal.
    exact (Hother "id" ltac:(done)).
  - eexists. split; [reflexivity|]. split; [|reflexivity].
    unfold or_else. by destruct (truthy (Handlers.detail err)) eqn:E.
Qed.

(** X14. Resolving a conversation. Nothing is called unless a conversation
    is open and the user confirms. A rejected call is silent: no alert, no
    change. A resolved call closes the conversation: nothing is selected,
    the list of the active tab is requested, the panel offers no button
    and no message box, the 3 s history poll requests nothing, the
    handlers for resolve and send do nothing, and no live event changes the
    messages, which stay in the state as they were. *)
Theorem resolve_outcomes
    (agent : value) (protocol hostname : string) (valid_url : string -> bool)
    (type_error : value)
    (answer : bool) (t : Dashboard.tab) (s : Handlers.state) (d err : value) :
  let selected := Handlers.selectedConversation s in
  let s1 := fst (Handlers.resolve_settled t (Api.Resolved d) s) in
  Handlers.handleResolveConversation answer s
    = (s, if truthy selected && answer
          then [Handlers.Call (Handlers.Resolve (opt_prop selected "id"))] else [])
  ∧ Handlers.resolve_settled t (Api.Rejected err) s = (s, [])
  ∧ Handlers.selectedConversation s1 = VNull
  ∧ snd (Handlers.resolve_settled t (Api.Resolved d) s)
    = Handlers.pages [Dashboard.Request (Dashboard.loadConversations_call t)]
  ∧ Handlers.offers_accept VNull || Handlers.offers_resolve VNull
    || Handlers.offers_input VNull = false
  ∧ Dashboard.step agent protocol hostname valid_url type_error
      (Handlers.page s1) Dashboard.MessagesTick = Some (Handlers.page s1, [])
  ∧ (∀ answer', Handlers.handleResolveConversation answer' s1 = (s1, []))
  ∧ handleSendMessage s1 = (s1, [])
  ∧ (∀ data, Dashboard.messages
               <$> (fst <$> Dashboard.handleWebSocketMessage data (Handlers.page s1))
             = Some (Dashboard.messages (Handlers.page s))).
Proof.
  intros selected s1. repeat split; try done.
  - unfold Handlers.handleResolveConversation. fold selected.
    by destruct (truthy selected), answer.
  - unfold Handlers.handleSendMessage. cbn. by rewrite orb_true_r.
  - intros data. unfold Dashboard.handleWebSocketMessage.
    destruct (prop data "type") as [ty|]; [|done]. cbn.
    by repeat case_match.
Qed.

End HandlersMore.

Lemma failed_send_restores_page_witness :
  Handlers.send_settled (Handlers.selectedConversation Demo2.chat)
    (fst (Services.send true Demo2.down (VNum 5) (VStr "oi") ∅))
    (fst (Handlers.handleSendMessage Demo2.blank Demo2.chat))
  = (Demo2.chat, [Handlers.Alert (VStr "Erro ao enviar mensagem")]).
Proof.
  refine (proj2 (proj2 (failed_send_restores_page Demo2.blank true Demo2.down
                          Demo2.chat ∅ _ _ _)) _); reflexivity.
Defined.

Lemma sent_message_reloads_history_witness :
  Handlers.send_reloaded
    (Api.Resolved (VObj [("messages", VArr [VObj [("id", VNum 1)]])]))
    (fst (Handlers.send_settled (Handlers.selectedConversation Demo2.chat)
            (fst (Services.send true Demo2.up (VNum 5) (VStr "oi") ∅))
            (fst (Handlers.handleSendMessage Demo2.blank Demo2.chat))))
  = Handlers.State
      (Dashboard.loadMessages_settle
         (Api.Resolved (VObj [("messages", VArr [VObj [("id", VNum 1)]])]))
         (Handlers.page Demo2.chat))
      EmptyString false.
Proof.
  refine (proj2 (proj2 (proj2 (sent_message_reloads_history Demo2.blank true Demo2.up
                                 Demo2.chat ∅ _ _ _ _ _)))); reflexivity.
Defined.

(** ** App.jsx: the session *)

Section AppMore.

Context (parse : string -> option value).

(** X15. What the first render makes of the stored session. Loading ends
    in every case. Afterwards the storage and the page agree: if both
    entries are still there, the stored agent parses and is the agent
    shown; otherwise no agent was restored. The storage is either as it
    was or has lost both entries, the latter exactly when both were there
    and the stored agent did not parse; no other entry is touched, and a
    second run of the effect changes nothing. *)
Theorem mount_restores_or_cleans (st0 : App.state) (ls : Api.storage) :
  let st := fst (App.mount parse st0 ls) in
  let ls' := snd (App.mount parse st0 ls) in
  let both (l : Api.storage) := App.present (l !! "agent") && App.present (l !! "token") in
  App.loading st = false
  ∧ (both ls' = true → parse (default "" (ls' !! "agent")) = Some (App.agent st))
  ∧ (both ls' = false → App.agent st = App.agent st0)
  ∧ (if both ls && bool_decide (parse (default "" (ls !! "agent")) = None)
     then ls' !! "agent" = None ∧ ls' !! "token" = None
     else ls' = ls)
  ∧ (∀ k, k ≠ "agent" → k ≠ "token" → ls' !! k = ls !! k)
  ∧ App.mount parse st ls' = (st, ls').
Proof.
  intros st ls' both. subst st ls'. unfold App.mount. fold (both ls).
  destruct (both ls) eqn:Hboth; cbn [andb fst snd].
  - destruct (parse (default "" (ls !! "agent"))) as [a|] eqn:Hparse; cbn [fst snd].
    + rewrite bool_decide_eq_false_2 by done. fold (both ls).
      rewrite Hboth, Hparse. repeat split; try done; by rewrite ?Hboth.
    + rewrite bool_decide_eq_true_2 by done.
      assert (Hno : both (delete "token" (delete "agent" ls)) = false).
      { unfold both. by rewrite lookup_delete_eq, andb_false_r. }
      fold (both (delete "token" (delete "agent" ls))). rewrite Hno.
      repeat split; try done.
      all: first [ by rewrite lookup_delete_eq
                 | by rewrite lookup_delete_ne, lookup_delete_eq
                 | intros k Ha Ht; by rewrite !lookup_delete_ne ].
  - fold (both ls). rewrite Hboth. repeat split; try done; by rewrite ?Hboth.
Qed.

(** X16. The route guard. Once loading has ended, every route of the
    table lands, after at most two redirects, on the login page when no
    agent is set and on a page of the application when one is: the agents
    page for /agents, whatever the agent's fields say, and the dashboard
    for the three others. One redirect is not enough for /login with an
    agent set. While loading, every route shows the spinner. *)
Theorem route_guard (a : value) (r : App.route) :
  App.land 2 (App.State a false) r
    = Some (if truthy a
            then match r with
                 | App.RAgents => App.AgentsPage
                 | _ => App.DashboardPage a
                 end
            else App.LoginPage)
  ∧ App.land 1 (App.State a false) App.RLogin
    = (if truthy a then None else Some App.LoginPage)
  ∧ (∀ hops, App.land hops (App.State a true) r = Some App.Spinner).
Proof.
  split; [|split].
  - destruct r; cbn; destruct (truthy a) eqn:E; cbn; rewrite ?E; cbn; rewrite ?E; done.
  - cbn. destruct (truthy a) eqn:E; cbn; rewrite ?E; done.
  - by intros [|hops].
Qed.

(** X17. Logging out of the application. The agent is unset and both
    stored entries are gone, with no other entry touched; from then on no
    request gets an Authorization header from the interceptor, every route
    lands on the login page, and a reload of the application restores no
    agent. *)
Theorem logout_ends_session
    (PROD : bool) (a : value) (ls : Api.storage) (r : App.route) (req : Api.request) :
  let st' := fst (App.handleLogout (App.State a false) ls) in
  let ls' := snd (App.handleLogout (App.State a false) ls) in
  App.agent st' = VNull
  ∧ ls' !! "token" = None
  ∧ ls' !! "agent" = None
  ∧ (∀ k, k ≠ "agent" → k ≠ "token" → ls' !! k = ls !! k)
  ∧ Api.headers (Api.outgoing PROD ls' req) !! "Authorization"
    = Api.headers req !! "Authorization"
  ∧ App.land 2 st' r = Some App.LoginPage
  ∧ App.mount parse App.init ls' = (App.State VNull false, ls').
Proof.
  intros st' ls'. subst st' ls'. cbn [App.handleLogout fst snd].
  assert (Htok : delete "agent" (delete "token" ls) !! "token" = None (A:=string)).
  { by rewrite lookup_delete_ne, lookup_delete_eq. }
  assert (Hag : delete "agent" (delete "token" ls) !! "agent" = None (A:=string)).
  { by rewrite lookup_delete_eq. }
  repeat split; try done.
  - intros k Ha Ht. by rewrite !lookup_delete_ne.
  - unfold Api.outgoing. rewrite interceptor_without_token by done.
    apply with_defaults_authorization.
  - by destruct r.
  - unfold App.mount. by rewrite Hag.
Qed.

End AppMore.

(** ** pages/Agents.jsx *)

Section AgentsMore.



End AgentsMore.

(** ** The open conversation *)

Section PageSelection.

Context (agent : value) (protocol hostname : string).
Context (valid_url : string -> bool) (type_error : value).

Local Abbreviation step :=
  (Dashboard.step agent protocol hostname valid_url type_error).
Local Abbreviation run :=
  (Dashboard.run agent protocol hostname valid_url type_error).






End PageSelection.

